(** * Timers: a shallow embedding of [src/utils/timers.ts]

    The module keeps its state in module-level [let] bindings (the two
    registries, the bound clock and memory helpers, the two exported function
    slots).  Here that state is one record, [World], threaded through a small
    state-and-exception monad [JS].  The runtime (clock, heap usage), the
    OpenTelemetry tracer, the object heap holding plugin objects and the
    promise machinery are part of [World] as well, since the code observes
    them.

    Numbers: elapsed times are IEEE-754 doubles ([float], the same type a
    JavaScript number has), heap usage is a byte count ([N]), a memory delta
    is an integer ([Z]), a level is an integer ([Z]).

    Objects used as dictionaries ([timers], [spans]) are finite maps keyed by
    strings.  The first part takes them as such; the keys for which an object
    literal differs from a finite map (["hasOwnProperty"], ["__proto__"]) and
    the longest string the engine builds are the subject of the second part,
    module [Js]. *)

From Stdlib Require Import Floats ZArith NArith Ascii.
From stdpp Require Import base option list strings gmap fin_maps pretty.

Local Open Scope string_scope.

(** ** Values *)

(** References to plugin objects, promises, user functions and spans. *)
Abbreviation loc := nat (only parsing).
Abbreviation pid := nat (only parsing).
Abbreviation fid := nat (only parsing).
Abbreviation SpanRef := nat (only parsing).

(** What hooks receive, return and throw. *)
Inductive Value : Type :=
  | VUndefined
  | VNumber (n : Z)
  | VString (s : string)
  | VObject (l : loc)
  | VPromise (p : pid)
  | VRangeError
  | VTypeError.

Inductive Result (A : Type) : Type :=
  | Ok (a : A)
  | Throw (e : Value).
Arguments Ok {A} a.
Arguments Throw {A} e.

(** ** The runtime *)

(** [StartTime = [number, number]]. *)
Abbreviation StartTime := (float * float)%type (only parsing).

(** What the host offers at one instant: which capabilities exist
    ([typeof process.hrtime === 'function'] and so on) and what they would
    return if called now. *)
Record Env := {
  has_hrtime : bool;
  hrtime : option StartTime -> StartTime;
  has_performance_now : bool;
  performance_now : float;
  has_memoryUsage : bool;
  heapUsed : N
}.

(** The closures that [getStartTime], [getElapsedTime] and [getMemory] can be
    bound to: the initial stubs and the ones [setTimeHelpers] installs. *)
Inductive TimeHelper := StubTime | HrTime | PerfNow.
Inductive MemHelper := StubMemory | HeapUsed.

(** ** Registries *)

Record Timer := {
  memory : Z;
  startMemory : N;
  startTime : StartTime;
  time : float;
  totalMemory : N
}.

(** Calls made on the tracer and on the spans it handed out, oldest first. *)
Inductive AttrVal := AUndefined | ANumber (n : N).

Inductive TracerCall :=
  | StartSpan (name : string) (s : SpanRef)
  | SetAttributes (s : SpanRef) (attrs : list (string * AttrVal))
  | SetAttribute (s : SpanRef) (key : string) (v : AttrVal)
  | EndSpan (s : SpanRef).

(** The implementations the exported [timeStart] / [timeEnd] can point to. *)
Inductive StartSlot := NOOP_start | TimeStartImpl | TimeStartTraceImpl.
Inductive EndSlot := NOOP_end | TimeEndImpl | TimeEndTraceImpl.

(** ** Plugin objects *)

(** An own enumerable property of a plugin object: a string (the [name]), a
    function supplied by the user, or the closure built at lines 115-127.
    That closure captures [timerLabel], [plugin], [timedPlugin] and [hook];
    plugin objects are never mutated by this module, so [plugin[hook]] is
    represented by the property value found when the wrapper was built. *)
Inductive Prop_ :=
  | PStr (s : string)
  | PNative (f : fid)
  | PTimed (timerLabel : string) (plugin timedPlugin : loc) (orig : Prop_).

(** Properties in [Object.keys] order. *)
Abbreviation PluginObj := (list (string * Prop_)) (only parsing).

(** ** Promises *)

Inductive Settled := Fulfilled (v : Value) | Rejected (e : Value).

(** The one kind of reaction this module registers: the arrow function of
    lines 121-124, together with the promise [then] returned for it. *)
Record Reaction := {
  r_timerLabel : string;
  r_derived : pid
}.

Record PromiseCell := {
  status : option Settled;
  reactions : list Reaction
}.

Abbreviation Job := (Reaction * Settled)%type (only parsing).

(** ** The world *)

Record World := {
  env : Env;
  getStartTime : TimeHelper;
  getElapsedTime : TimeHelper;
  getMemory : MemHelper;
  timers : gmap string Timer;
  spans : gmap string SpanRef;
  timeStart : StartSlot;
  timeEnd : EndSlot;
  tracer : list TracerCall;
  heap : list PluginObj;
  promises : list PromiseCell;
  microtasks : list Job
}.

Definition set_env (e : Env) (w : World) : World :=
  {| env := e; getStartTime := getStartTime w; getElapsedTime := getElapsedTime w;
     getMemory := getMemory w; timers := timers w; spans := spans w;
     timeStart := timeStart w; timeEnd := timeEnd w; tracer := tracer w;
     heap := heap w; promises := promises w; microtasks := microtasks w |}.

Definition set_time_helpers (s e : TimeHelper) (w : World) : World :=
  {| env := env w; getStartTime := s; getElapsedTime := e;
     getMemory := getMemory w; timers := timers w; spans := spans w;
     timeStart := timeStart w; timeEnd := timeEnd w; tracer := tracer w;
     heap := heap w; promises := promises w; microtasks := microtasks w |}.

Definition set_getMemory (m : MemHelper) (w : World) : World :=
  {| env := env w; getStartTime := getStartTime w; getElapsedTime := getElapsedTime w;
     getMemory := m; timers := timers w; spans := spans w;
     timeStart := timeStart w; timeEnd := timeEnd w; tracer := tracer w;
     heap := heap w; promises := promises w; microtasks := microtasks w |}.

Definition set_timers (t : gmap string Timer) (w : World) : World :=
  {| env := env w; getStartTime := getStartTime w; getElapsedTime := getElapsedTime w;
     getMemory := getMemory w; timers := t; spans := spans w;
     timeStart := timeStart w; timeEnd := timeEnd w; tracer := tracer w;
     heap := heap w; promises := promises w; microtasks := microtasks w |}.

Definition set_spans (s : gmap string SpanRef) (w : World) : World :=
  {| env := env w; getStartTime := getStartTime w; getElapsedTime := getElapsedTime w;
     getMemory := getMemory w; timers := timers w; spans := s;
     timeStart := timeStart w; timeEnd := timeEnd w; tracer := tracer w;
     heap := heap w; promises := promises w; microtasks := microtasks w |}.

Definition set_slots (s : StartSlot) (e : EndSlot) (w : World) : World :=
  {| env := env w; getStartTime := getStartTime w; getElapsedTime := getElapsedTime w;
     getMemory := getMemory w; timers := timers w; spans := spans w;
     timeStart := s; timeEnd := e; tracer := tracer w;
     heap := heap w; promises := promises w; microtasks := microtasks w |}.

Definition set_tracer (t : list TracerCall) (w : World) : World :=
  {| env := env w; getStartTime := getStartTime w; getElapsedTime := getElapsedTime w;
     getMemory := getMemory w; timers := timers w; spans := spans w;
     timeStart := timeStart w; timeEnd := timeEnd w; tracer := t;
     heap := heap w; promises := promises w; microtasks := microtasks w |}.

Definition set_heap (h : list PluginObj) (w : World) : World :=
  {| env := env w; getStartTime := getStartTime w; getElapsedTime := getElapsedTime w;
     getMemory := getMemory w; timers := timers w; spans := spans w;
     timeStart := timeStart w; timeEnd := timeEnd w; tracer := tracer w;
     heap := h; promises := promises w; microtasks := microtasks w |}.

Definition set_promises (p : list PromiseCell) (w : World) : World :=
  {| env := env w; getStartTime := getStartTime w; getElapsedTime := getElapsedTime w;
     getMemory := getMemory w; timers := timers w; spans := spans w;
     timeStart := timeStart w; timeEnd := timeEnd w; tracer := tracer w;
     heap := heap w; promises := p; microtasks := microtasks w |}.

Definition set_microtasks (q : list Job) (w : World) : World :=
  {| env := env w; getStartTime := getStartTime w; getElapsedTime := getElapsedTime w;
     getMemory := getMemory w; timers := timers w; spans := spans w;
     timeStart := timeStart w; timeEnd := timeEnd w; tracer := tracer w;
     heap := heap w; promises := promises w; microtasks := q |}.

(** ** Computations that read and write the world and may throw *)

Definition JS (A : Type) : Type := World -> Result A * World.

Definition ret {A} (a : A) : JS A := fun w => (Ok a, w).

Definition throw {A} (e : Value) : JS A := fun w => (Throw e, w).

Definition bind {A B} (m : JS A) (k : A -> JS B) : JS B :=
  fun w =>
    match m w with
    | (Ok a, w') => k a w'
    | (Throw e, w') => (Throw e, w')
    end.

Definition modify (f : World -> World) : JS unit := fun w => (Ok tt, f w).

Definition lift {A} (r : Result A) : JS A := fun w => (r, w).

Notation "'let*' x ':=' c1 'in' c2" := (bind c1 (fun x => c2))
  (at level 10, x name, c1 at level 100, c2 at level 200).
Notation "c1 ';;;' c2" := (bind c1 (fun _ => c2))
  (at level 100, c2 at level 200, right associativity).

(** ** Time helpers (lines 26-46) *)

Definition normalizeHrTime (time : StartTime) : float :=
  (fst time * 1e3 + snd time / 1e6)%float.

Definition call_getStartTime (w : World) : StartTime :=
  match getStartTime w with
  | StubTime => (0, 0)%float
  | HrTime => hrtime (env w) None
  | PerfNow => (performance_now (env w), 0%float)
  end.

Definition call_getElapsedTime (w : World) (previous : StartTime) : float :=
  match getElapsedTime w with
  | StubTime => 0%float
  | HrTime => normalizeHrTime (hrtime (env w) (Some previous))
  | PerfNow => (performance_now (env w) - fst previous)%float
  end.

Definition call_getMemory (w : World) : N :=
  match getMemory w with
  | StubMemory => 0%N
  | HeapUsed => heapUsed (env w)
  end.

Definition setTimeHelpers (w : World) : World :=
  let w1 :=
    if has_hrtime (env w) then set_time_helpers HrTime HrTime w
    else if has_performance_now (env w) then set_time_helpers PerfNow PerfNow w
    else w in
  if has_memoryUsage (env w1) then set_getMemory HeapUsed w1 else w1.

(** ** Labels (lines 48-59) *)

Fixpoint repeat_string (s : string) (n : nat) : string :=
  match n with
  | O => ""
  | S n' => s ++ repeat_string s n'
  end.

(** [String.prototype.repeat]: a negative count is a [RangeError]. *)
Definition js_repeat (s : string) (count : Z) : Result string :=
  if (count <? 0)%Z then Throw VRangeError
  else Ok (repeat_string s (Z.to_nat count)).

Definition getPersistedLabel (label : string) (level : Z) : Result string :=
  match level with
  | 1%Z => Ok ("# " ++ label)
  | 2%Z => Ok ("## " ++ label)
  | 3%Z => Ok label
  | _ =>
      match js_repeat "  " (level - 4) with
      | Ok indent => Ok (indent ++ "- " ++ label)
      | Throw e => Throw e
      end
  end.

(** A parameter declared [level = 3]. *)
Definition level_or_default (level : option Z) : Z := default 3%Z level.

(** ** The timer registry (lines 61-93) *)

(** [timeStartImpl]: the record is created with its start fields unset and
    they are assigned before the function returns, so a stored record always
    carries both. *)
Definition timeStartImpl (label : string) (level : option Z) : JS unit :=
  let* label := lift (getPersistedLabel label (level_or_default level)) in
  fun w =>
    let currentMemory := call_getMemory w in
    let t :=
      match timers w !! label with
      | Some t => t
      | None => {| memory := 0; startMemory := currentMemory;
                   startTime := call_getStartTime w; time := 0; totalMemory := 0 |}
      end in
    let t' := {| memory := memory t; startMemory := currentMemory;
                 startTime := call_getStartTime w; time := time t;
                 totalMemory := totalMemory t |} in
    (Ok tt, set_timers (<[label := t']> (timers w)) w).

Definition timeEndImpl (label : string) (level : option Z) : JS unit :=
  let* label := lift (getPersistedLabel label (level_or_default level)) in
  fun w =>
    match timers w !! label with
    | Some t =>
        let currentMemory := call_getMemory w in
        let t' := {| memory := memory t + (Z.of_N currentMemory - Z.of_N (startMemory t));
                     startMemory := startMemory t;
                     startTime := startTime t;
                     time := (time t + call_getElapsedTime w (startTime t))%float;
                     totalMemory := N.max (totalMemory t) currentMemory |} in
        (Ok tt, set_timers (<[label := t']> (timers w)) w)
    | None => (Ok tt, w)
    end.

(** [SerializedTimings]: label to [[time, memory, totalMemory]]. *)
Definition getTimings (w : World) : gmap string (float * Z * N) :=
  (fun t => (time t, memory t, totalMemory t)) <$> timers w.

(** ** The span registry (lines 156-179) *)

Definition log (c : TracerCall) (w : World) : World :=
  set_tracer (tracer w ++ [c]) w.

(** [tracer.startSpan] hands out a span it has not handed out before; the
    attribute object of lines 159-164 is logged as written. *)
Definition timeStartTraceImpl (label : string) (_level : option Z) : JS unit :=
  fun w =>
    match spans w !! label with
    | Some _ => (Ok tt, w)
    | None =>
        let new_span := length (tracer w) in
        let w1 := log (StartSpan label new_span) w in
        let w2 := log (SetAttributes new_span
                         [("memory", ANumber 0); ("startMemory", AUndefined);
                          ("endMemory", AUndefined); ("totalMemory", ANumber 0)]) w1 in
        let w3 := set_spans (<[label := new_span]> (spans w2)) w2 in
        let currentMemory := call_getMemory w3 in
        (Ok tt, log (SetAttribute new_span "startMemory" (ANumber currentMemory)) w3)
    end.

Definition timeEndTraceImpl (label : string) (_level : option Z) : JS unit :=
  fun w =>
    match timers w !! label with
    | Some t =>
        let labeledSpan := spans w !! label in
        let currentMemory := call_getMemory w in
        match labeledSpan with
        | None => (Throw VTypeError, w)
        | Some s =>
            (Ok tt,
             log (EndSpan s)
               (log (SetAttribute s "endMemory" (ANumber currentMemory))
                  (log (SetAttribute s "totalMemory"
                          (ANumber (N.max (totalMemory t) currentMemory))) w)))
        end
    | None => (Ok tt, w)
    end.

(** ** The exported slots (lines 95-96) *)

Definition call_timeStart (label : string) (level : option Z) : JS unit :=
  fun w =>
    match timeStart w with
    | NOOP_start => (Ok tt, w)
    | TimeStartImpl => timeStartImpl label level w
    | TimeStartTraceImpl => timeStartTraceImpl label level w
    end.

Definition call_timeEnd (label : string) (level : option Z) : JS unit :=
  fun w =>
    match timeEnd w with
    | NOOP_end => (Ok tt, w)
    | TimeEndImpl => timeEndImpl label level w
    | TimeEndTraceImpl => timeEndTraceImpl label level w
    end.

(** ** Instrumenting plugins (lines 98-133, 181-183) *)

Definition TIMED_PLUGIN_HOOKS (hook : string) : bool :=
  bool_decide (hook ∈ ["load"; "resolveDynamicImport"; "resolveId"; "transform"]).

Fixpoint get_prop (key : string) (o : PluginObj) : option Prop_ :=
  match o with
  | [] => None
  | (k, v) :: o' => if String.eqb k key then Some v else get_prop key o'
  end.

(** [plugin.name] when it is truthy.  The [Plugin] interface declares it a
    string; the empty string is falsy. *)
Definition plugin_name (o : PluginObj) : option string :=
  match get_prop "name" o with
  | Some (PStr s) => if String.eqb s "" then None else Some s
  | _ => None
  end.

(** Lines 110-114. *)
Definition timerLabel_of (o : PluginObj) (index : nat) (hook : string) : string :=
  let timerLabel := "plugin " ++ pretty index in
  let timerLabel :=
    match plugin_name o with
    | Some n => timerLabel ++ " (" ++ n ++ ")"
    | None => timerLabel
    end in
  timerLabel ++ " - " ++ hook.

(** The object built by the loop of lines 108-131. *)
Definition timed_object (o : PluginObj) (plugin timedPlugin : loc) (index : nat)
    : PluginObj :=
  map (fun kv : string * Prop_ =>
         let hook := fst kv in
         if TIMED_PLUGIN_HOOKS hook
         then (hook, PTimed (timerLabel_of o index hook) plugin timedPlugin (snd kv))
         else (hook, snd kv)) o.

(** [timedPlugin] is a new object, allocated after the ones the heap holds.
    A reference the heap does not hold is read as an object without
    properties. *)
Definition getPluginWithTimers (plugin : loc) (index : nat) (w : World) : loc * World :=
  let timedPlugin := length (heap w) in
  let o := default [] (heap w !! plugin) in
  (timedPlugin, set_heap (heap w ++ [timed_object o plugin timedPlugin index]) w).

Definition getPluginWithSpan (plugin : loc) (_index : nat) : loc := plugin.

(** [Array.prototype.map] with a callback that allocates. *)
Fixpoint array_map (f : loc -> nat -> World -> loc * World)
    (l : list loc) (index : nat) (w : World) : list loc * World :=
  match l with
  | [] => ([], w)
  | x :: l' =>
      let '(y, w1) := f x index w in
      let '(ys, w2) := array_map f l' (S index) w1 in
      (y :: ys, w2)
  end.

(** ** Initialisation (lines 135-154) *)

(** [plugins] is dereferenced with [!]: callers pass the normalised option
    object, in which it is an array. *)
Record InputOptions := {
  perf : bool;
  trace : bool;
  plugins : list loc
}.

Definition set_plugins (ps : list loc) (o : InputOptions) : InputOptions :=
  {| perf := perf o; trace := trace o; plugins := ps |}.

Definition initialiseTimers (inputOptions : InputOptions) (w : World)
    : InputOptions * World :=
  let '(inputOptions, w) :=
    if perf inputOptions then
      let w := set_timers ∅ w in
      let w := setTimeHelpers w in
      let w := set_slots TimeStartImpl TimeEndImpl w in
      let '(ps, w) := array_map getPluginWithTimers (plugins inputOptions) 0 w in
      (set_plugins ps inputOptions, w)
    else
      (inputOptions, set_slots NOOP_start NOOP_end w) in
  if trace inputOptions then
    let w := set_spans ∅ w in
    let w := setTimeHelpers w in
    let w := set_slots TimeStartTraceImpl TimeEndTraceImpl w in
    (set_plugins (imap (fun i p => getPluginWithSpan p i) (plugins inputOptions))
       inputOptions, w)
  else (inputOptions, w).

(** The module as loaded: stubs bound, registries empty, slots on [NOOP]. *)
Definition initial (e : Env) (h : list PluginObj) : World :=
  {| env := e; getStartTime := StubTime; getElapsedTime := StubTime;
     getMemory := StubMemory; timers := ∅; spans := ∅;
     timeStart := NOOP_start; timeEnd := NOOP_end; tracer := [];
     heap := h; promises := []; microtasks := [] |}.

(** ** Promises *)

#[global] Instance Value_eq_dec : EqDecision Value.
Proof. solve_decision. Defined.

Definition is_thenable (v : Value) : option pid :=
  match v with
  | VPromise p => Some p
  | _ => None
  end.


(** [result.then(hookResult => { timeEnd(...); return hookResult })]: a new
    promise is returned; the reaction waits on a pending [p] and is queued at
    once for a settled one.  Only a fulfilment handler is passed.  A
    reference the promise store does not hold has no [then] to call. *)
Definition promise_then (p : pid) (timerLabel : string) : JS Value :=
  fun w =>
    match promises w !! p with
    | Some c =>
        let derived := length (promises w) in
        let r := {| r_timerLabel := timerLabel; r_derived := derived |} in
        let w1 := set_promises (promises w ++ [{| status := None; reactions := [] |}]) w in
        match status c with
        | None =>
            (Ok (VPromise derived),
             set_promises
               (<[p := {| status := None; reactions := reactions c ++ [r] |}]> (promises w1)) w1)
        | Some s =>
            (Ok (VPromise derived), set_microtasks (microtasks w1 ++ [(r, s)]) w1)
        end
    | None => (Throw VTypeError, w)
    end.



(** ** Calling a hook *)

Section Calls.

(** What the user-supplied functions do: anything, to any part of the
    world. *)
Variable native : fid -> Value -> list Value -> JS Value.

(** Lines 116-126, with the call of line 117 as [call_orig]. *)
Definition timed_hook (timerLabel : string) (call_orig : JS Value) : JS Value :=
  call_timeStart timerLabel (Some 4%Z) ;;;
  let* result := call_orig in
  call_timeEnd timerLabel (Some 4%Z) ;;;
  match is_thenable result with
  | Some p =>
      call_timeStart (timerLabel ++ " (async)") (Some 4%Z) ;;;
      promise_then p timerLabel
  | None => ret result
  end.

(** [this === timedPlugin ? plugin : this]. *)
Definition receiver (this : Value) (plugin timedPlugin : loc) : Value :=
  if decide (this = VObject timedPlugin) then VObject plugin else this.

Fixpoint call (f : Prop_) (this : Value) (args : list Value) : JS Value :=
  match f with
  | PStr _ => throw VTypeError
  | PNative f => native f this args
  | PTimed timerLabel plugin timedPlugin orig =>
      timed_hook timerLabel (call orig (receiver this plugin timedPlugin) args)
  end.

End Calls.

(** ** Sequences of calls *)

(** A complete cycle on one label: the host is in state [at_start] when
    [timeStart] runs and in state [at_end] when [timeEnd] runs. *)
Record Cycle := {
  at_start : Env;
  at_end : Env
}.

Definition run_cycle (label : string) (level : option Z) (c : Cycle) : JS unit :=
  modify (set_env (at_start c)) ;;;
  call_timeStart label level ;;;
  modify (set_env (at_end c)) ;;;
  call_timeEnd label level.

Fixpoint run_cycles (label : string) (level : option Z) (cs : list Cycle) : JS unit :=
  match cs with
  | [] => ret tt
  | c :: cs' => run_cycle label level c ;;; run_cycles label level cs'
  end.

(** What one cycle measures, with the helpers bound as in [w]. *)
Definition start_memory (w : World) (c : Cycle) : N :=
  call_getMemory (set_env (at_start c) w).

Definition end_memory (w : World) (c : Cycle) : N :=
  call_getMemory (set_env (at_end c) w).

Definition elapsed (w : World) (c : Cycle) : float :=
  call_getElapsedTime (set_env (at_end c) w)
    (call_getStartTime (set_env (at_start c) w)).

Definition memory_delta (w : World) (c : Cycle) : Z :=
  (Z.of_N (end_memory w c) - Z.of_N (start_memory w c))%Z.

(** Arbitrary calls through the exported slots. *)
Inductive TimerCall :=
  | CallStart (label : string) (level : option Z)
  | CallEnd (label : string) (level : option Z).

Definition run_call (c : TimerCall) : JS unit :=
  match c with
  | CallStart label level => call_timeStart label level
  | CallEnd label level => call_timeEnd label level
  end.

Fixpoint run_calls (cs : list TimerCall) : JS unit :=
  match cs with
  | [] => ret tt
  | c :: cs' => run_call c ;;; run_calls cs'
  end.

(** The accumulators of a label: those of its record, or zero without one. *)
Definition acc_time (o : option Timer) : float := from_option time 0%float o.
Definition acc_memory (o : option Timer) : Z := from_option memory 0%Z o.
Definition acc_total (o : option Timer) : N := from_option totalMemory 0%N o.

(** Timing mode: what the [perf] branch of [initialiseTimers] binds. *)
Definition Timing (w : World) : Prop :=
  timeStart w = TimeStartImpl /\ timeEnd w = TimeEndImpl.

Definition Tracing (w : World) : Prop :=
  timeStart w = TimeStartTraceImpl /\ timeEnd w = TimeEndTraceImpl.

Definition Disabled (w : World) : Prop :=
  timeStart w = NOOP_start /\ timeEnd w = NOOP_end.

Definition same_helpers (w w' : World) : Prop :=
  getStartTime w' = getStartTime w
  /\ getElapsedTime w' = getElapsedTime w
  /\ getMemory w' = getMemory w.

(** ** Concrete hosts, plugins and worlds used as examples *)

(** A host without [process.hrtime], with [performance.now] reading [now]
    and a heap of [mem] bytes. *)
Definition host (now : float) (mem : N) : Env :=
  {| has_hrtime := false; hrtime := fun _ => (0, 0)%float;
     has_performance_now := true; performance_now := now;
     has_memoryUsage := true; heapUsed := mem |}.

Definition plugin_p : PluginObj :=
  [("name", PStr "p"); ("transform", PNative 0); ("buildEnd", PNative 1)].

Definition loaded : World := initial (host 0 100) [plugin_p].

Definition perf_options : InputOptions :=
  {| perf := true; trace := false; plugins := [0] |}.

Definition timing_world : World := snd (initialiseTimers perf_options loaded).

Definition two_cycles : list Cycle :=
  [ {| at_start := host 1 100; at_end := host 3.5 150 |};
    {| at_start := host 10 120; at_end := host 11 110 |} ].

Definition trace_options : InputOptions :=
  {| perf := false; trace := true; plugins := [0] |}.

Definition tracing_world : World := snd (initialiseTimers trace_options loaded).

Definition perf_trace_options : InputOptions :=
  {| perf := true; trace := true; plugins := [0] |}.

Definition disabled_options : InputOptions :=
  {| perf := false; trace := false; plugins := [0] |}.

(** A Timing activation that has measured the label ["build"] twice. *)
Definition timed_before : World :=
  snd (run_cycles "build" None two_cycles timing_world).

(** User code for the examples.  Each takes five milliseconds and thirty
    bytes of heap; the first returns a number, the second a promise that is
    still pending, the third throws. *)
Definition returns_7 (_ : fid) (_ : Value) (_ : list Value) : JS Value :=
  fun w => (Ok (VNumber 7), set_env (host 5 130) w).



(** The wrapper that [timing_world] holds for the [transform] hook of
    [plugin_p]. *)
Definition wrapped_transform : Prop_ :=
  PTimed "plugin 0 (p) - transform" 0 1 (PNative 0).


(** ** Interleavings *)

(** What can happen between two hook calls as far as this module sees it:
    the host moves on, or somebody calls one of the two exported slots. *)
Inductive Event :=
  | Tick (e : Env)
  | Call (c : TimerCall).

Definition run_event (ev : Event) : JS unit :=
  match ev with
  | Tick e => modify (set_env e)
  | Call c => run_call c
  end.

Fixpoint run_events (evs : list Event) : JS unit :=
  match evs with
  | [] => ret tt
  | ev :: evs' => run_event ev ;;; run_events evs'
  end.

(** Between two states of the timer registry: no record has been removed and
    no peak has been lowered. *)
Definition grows (w w' : World) : Prop :=
  forall K,
    (is_Some (timers w !! K) -> is_Some (timers w' !! K))
    /\ (acc_total (timers w !! K) <= acc_total (timers w' !! K))%N.

Definition is_EndSpan (c : TracerCall) : bool :=
  match c with
  | EndSpan _ => true
  | _ => false
  end.

(** Decimal digits, as [`${index}`] produces them. *)
Definition is_digit (c : ascii) : bool :=
  bool_decide (c ∈ ["0"; "1"; "2"; "3"; "4"; "5"; "6"; "7"; "8"; "9"]%char).

Fixpoint all_digits (s : string) : bool :=
  match s with
  | EmptyString => true
  | String c s' => is_digit c && all_digits s'
  end.

(** A host that offers neither clock nor [process.memoryUsage]. *)
Definition bare_host : Env :=
  {| has_hrtime := false; hrtime := fun _ => (0, 0)%float;
     has_performance_now := false; performance_now := 0%float;
     has_memoryUsage := false; heapUsed := 0%N |}.

(** A host with [process.hrtime]: the clock stands at [s] seconds and [ns]
    nanoseconds; the difference to an earlier reading is taken field by
    field. *)
Definition node_host (s ns : float) (mem : N) : Env :=
  {| has_hrtime := true;
     hrtime := fun previous =>
                 match previous with
                 | None => (s, ns)
                 | Some p => (s - fst p, ns - snd p)%float
                 end;
     has_performance_now := true; performance_now := 0%float;
     has_memoryUsage := true; heapUsed := mem |}.


(** * The registries as JavaScript objects

    [timers] and [spans] are object literals, tested with
    [o.hasOwnProperty(key)] and written with [o[key] = v].  Two keys make
    such an object differ from a finite map:

    - the key ["hasOwnProperty"]: once [o] has it as an own property, the
      expression [o.hasOwnProperty] is the stored record or span, which
      cannot be called, and every later test throws a TypeError;
    - the key ["__proto__"]: [o["__proto__"] = v] runs the setter of
      [Object.prototype], which makes [v] the prototype of [o] and creates no
      own property, so the own-property test stays false and
      [Object.entries] never lists the key.  Nothing in the module reads the
      prototype of [timers]; for [spans], see [timeEndTraceImpl] below.

    Strings also have a largest length, which depends on the engine: building
    a longer one is a RangeError.

    The definitions of [Js] are the functions of lines 48-85 and 156-179 with
    these three facts in; for other keys and short strings they are the
    functions of the first part (lemmas [Js_..._agrees]). *)

(** [o] can still answer [o.hasOwnProperty(...)]. *)
Definition intact {V : Type} (o : gmap string V) : Prop :=
  o !! "hasOwnProperty" = None.

(** The closures bound by [setTimeHelpers] look [process] and [performance]
    up when they are called; [getStartTime], bound with [bind], does not.
    [supports w e]: a host in state [e] still has what the helpers bound in
    [w] look up. *)
Definition supports (w : World) (e : Env) : Prop :=
  (getStartTime w = PerfNow -> has_performance_now e = true)
  /\ (getElapsedTime w = HrTime -> has_hrtime e = true)
  /\ (getElapsedTime w = PerfNow -> has_performance_now e = true)
  /\ (getMemory w = HeapUsed -> has_memoryUsage e = true).

(** [String::kMaxLength] of V8 on 64-bit hosts. *)
Definition v8_max_string_length : N := 536870888%N.

Module Js.

Section Engine.

(** The largest length a string may have in the engine at hand. *)
Variable max_string_length : N.

Definition fits (s : string) : bool :=
  (N.of_nat (String.length s) <=? max_string_length)%N.

(** [String.prototype.repeat]: a RangeError for a negative count and for a
    result that would be too long. *)
Definition repeat (s : string) (count : Z) : Result string :=
  if (count <? 0)%Z then Throw VRangeError
  else if (N.of_nat (String.length s) * Z.to_N count <=? max_string_length)%N
       then Ok (repeat_string s (Z.to_nat count))
       else Throw VRangeError.

(** A template literal. *)
Definition template (s : string) : Result string :=
  if fits s then Ok s else Throw VRangeError.

Definition getPersistedLabel (label : string) (level : Z) : Result string :=
  match level with
  | 1%Z => template ("# " ++ label)
  | 2%Z => template ("## " ++ label)
  | 3%Z => Ok label
  | _ =>
      match repeat "  " (level - 4) with
      | Ok indent => template (indent ++ "- " ++ label)
      | Throw e => Throw e
      end
  end.

(** The own property of [o] under [key]; there is none under ["__proto__"]. *)
Definition own {V : Type} (o : gmap string V) (key : string) : option V :=
  if String.eqb key "__proto__" then None else o !! key.

(** [o.hasOwnProperty(key)]. *)
Definition hasOwnProperty {V : Type} (o : gmap string V) (key : string) : Result bool :=
  match o !! "hasOwnProperty" with
  | Some _ => Throw VTypeError
  | None => Ok (match own o key with Some _ => true | None => false end)
  end.

(** [o[key] = v]. *)
Definition assign {V : Type} (o : gmap string V) (key : string) (v : V) : gmap string V :=
  if String.eqb key "__proto__" then o else <[key := v]> o.

(** Lines 61-75.  Under ["__proto__"] the record of lines 64-70 becomes the
    prototype of [timers] and lines 73-74 write into that prototype: the own
    properties stay as they are. *)
Definition timeStartImpl (label : string) (level : option Z) : JS unit :=
  let* label := lift (getPersistedLabel label (level_or_default level)) in
  fun w =>
    match hasOwnProperty (timers w) label with
    | Throw e => (Throw e, w)
    | Ok _ =>
        let currentMemory := call_getMemory w in
        let t :=
          match own (timers w) label with
          | Some t => t
          | None => {| memory := 0; startMemory := currentMemory;
                       startTime := call_getStartTime w; time := 0; totalMemory := 0 |}
          end in
        let t' := {| memory := memory t; startMemory := currentMemory;
                     startTime := call_getStartTime w; time := time t;
                     totalMemory := totalMemory t |} in
        (Ok tt, set_timers (assign (timers w) label t') w)
    end.

(** Lines 77-85. *)
Definition timeEndImpl (label : string) (level : option Z) : JS unit :=
  let* label := lift (getPersistedLabel label (level_or_default level)) in
  fun w =>
    match hasOwnProperty (timers w) label with
    | Throw e => (Throw e, w)
    | Ok _ =>
        match own (timers w) label with
        | Some t =>
            let currentMemory := call_getMemory w in
            let t' := {| memory := memory t
                                   + (Z.of_N currentMemory - Z.of_N (startMemory t));
                         startMemory := startMemory t;
                         startTime := startTime t;
                         time := (time t + call_getElapsedTime w (startTime t))%float;
                         totalMemory := N.max (totalMemory t) currentMemory |} in
            (Ok tt, set_timers (assign (timers w) label t') w)
        | None => (Ok tt, w)
        end
    end.

(** Lines 156-169.  Under ["__proto__"] the new span becomes the prototype
    of [spans], line 167 finds it there, and no own property is created: the
    next call starts another span. *)
Definition timeStartTraceImpl (label : string) (_level : option Z) : JS unit :=
  fun w =>
    match hasOwnProperty (spans w) label with
    | Throw e => (Throw e, w)
    | Ok true => (Ok tt, w)
    | Ok false =>
        let new_span := length (tracer w) in
        let w1 := log (StartSpan label new_span) w in
        let w2 := log (SetAttributes new_span
                         [("memory", ANumber 0); ("startMemory", AUndefined);
                          ("endMemory", AUndefined); ("totalMemory", ANumber 0)]) w1 in
        let w3 := set_spans (assign (spans w2) label new_span) w2 in
        let currentMemory := call_getMemory w3 in
        (Ok tt, log (SetAttribute new_span "startMemory" (ANumber currentMemory)) w3)
    end.

(** Lines 171-179.  The test is on [timers].  [spans[label]] for a label that
    is not an own key of [spans] is [undefined] or something inherited (a
    method of [Object.prototype] or, once a span has become the prototype, a
    member of that span): not a span, and calling its [setAttribute]
    fails. *)
Definition timeEndTraceImpl (label : string) (_level : option Z) : JS unit :=
  fun w =>
    match hasOwnProperty (timers w) label with
    | Throw e => (Throw e, w)
    | Ok _ =>
        match own (timers w) label with
        | Some t =>
            let currentMemory := call_getMemory w in
            match own (spans w) label with
            | None => (Throw VTypeError, w)
            | Some s =>
                (Ok tt,
                 log (EndSpan s)
                   (log (SetAttribute s "endMemory" (ANumber currentMemory))
                      (log (SetAttribute s "totalMemory"
                              (ANumber (N.max (totalMemory t) currentMemory))) w)))
            end
        | None => (Ok tt, w)
        end
    end.

Definition call_timeStart (label : string) (level : option Z) : JS unit :=
  fun w =>
    match timeStart w with
    | NOOP_start => (Ok tt, w)
    | TimeStartImpl => timeStartImpl label level w
    | TimeStartTraceImpl => timeStartTraceImpl label level w
    end.

Definition call_timeEnd (label : string) (level : option Z) : JS unit :=
  fun w =>
    match timeEnd w with
    | NOOP_end => (Ok tt, w)
    | TimeEndImpl => timeEndImpl label level w
    | TimeEndTraceImpl => timeEndTraceImpl label level w
    end.

Definition run_cycle (label : string) (level : option Z) (c : Cycle) : JS unit :=
  modify (set_env (at_start c)) ;;;
  call_timeStart label level ;;;
  modify (set_env (at_end c)) ;;;
  call_timeEnd label level.

Fixpoint run_cycles (label : string) (level : option Z) (cs : list Cycle) : JS unit :=
  match cs with
  | [] => ret tt
  | c :: cs' => run_cycle label level c ;;; run_cycles label level cs'
  end.

Definition run_event (ev : Event) : JS unit :=
  match ev with
  | Tick e => modify (set_env e)
  | Call (CallStart label level) => call_timeStart label level
  | Call (CallEnd label level) => call_timeEnd label level
  end.

Fixpoint run_events (evs : list Event) : JS unit :=
  match evs with
  | [] => ret tt
  | ev :: evs' => run_event ev ;;; run_events evs'
  end.

End Engine.

End Js.


Definition event_supported (w : World) (ev : Event) : Prop :=
  match ev with
  | Tick e => supports w e
  | Call _ => True
  end.

(** The events that store something under the key ["hasOwnProperty"] of
    [spans]. *)
Definition starts_hasOwnProperty (ev : Event) : bool :=
  match ev with
  | Call (CallStart label _) => String.eqb label "hasOwnProperty"
  | _ => false
  end.

(** Primitive results of a hook.  With [Number.prototype] and
    [String.prototype] as the language defines them, none of these has a
    [then], so the test of line 119 fails on each. *)
Definition is_primitive (v : Value) : bool :=
  match v with
  | VUndefined | VNumber _ | VString _ => true
  | _ => false
  end.

(** * Properties *)

(** ** Basic facts about the monad and the setters *)

Lemma bind_ok {A B} (m : JS A) (k : A -> JS B) w a w' :
  m w = (Ok a, w') -> bind m k w = k a w'.
Proof. intros H. unfold bind. now rewrite H. Qed.


Lemma string_length_app (s1 s2 : string) :
  String.length (s1 ++ s2) = String.length s1 + String.length s2.
Proof. induction s1 as [|c s1 IH]; simpl; [reflexivity | now rewrite IH]. Qed.

Lemma repeat_string_length (s : string) (n : nat) :
  String.length (repeat_string s n) = n * String.length s.
Proof.
  induction n as [|n IH]; simpl; [reflexivity|].
  now rewrite string_length_app, IH.
Qed.

(** ** The label formatter *)

Lemma getPersistedLabel_bullet (label : string) (level : Z) :
  (3 < level)%Z ->
  getPersistedLabel label level
  = Ok (repeat_string "  " (Z.to_nat (level - 4)) ++ "- " ++ label).
Proof.
  intros H. unfold getPersistedLabel, js_repeat.
  destruct (level - 4 <? 0)%Z eqn:E; [apply Z.ltb_lt in E; lia|].
  destruct level as [|p|p]; try lia.
  destruct p as [p|p|]; try lia; destruct p as [p|p|]; try lia; reflexivity.
Qed.

Lemma repeat_two_spaces (n : nat) :
  repeat_string "  " n = repeat_string " " (2 * n).
Proof.
  induction n as [|n IH]; [reflexivity|].
  replace (2 * S n) with (S (S (2 * n))) by lia.
  simpl repeat_string at 1. rewrite IH. reflexivity.
Qed.

Lemma getPersistedLabel_below_1 (label : string) (level : Z) :
  (level < 1)%Z -> getPersistedLabel label level = Throw VRangeError.
Proof.
  intros H. unfold getPersistedLabel, js_repeat.
  destruct (level - 4 <? 0)%Z eqn:E; [|apply Z.ltb_ge in E; lia].
  destruct level as [|p|p]; try reflexivity; lia.
Qed.

Lemma getPersistedLabel_from_1 (label : string) (level : Z) :
  (1 <= level)%Z -> exists s, getPersistedLabel label level = Ok s.
Proof.
  intros H.
  destruct (Z_lt_le_dec 3 level) as [H3|H3].
  - eexists. now apply getPersistedLabel_bullet.
  - assert (level = 1 \/ level = 2 \/ level = 3)%Z as [ -> | [ -> | -> ] ] by lia;
      eexists; reflexivity.
Qed.


(** ** The timer registry *)

Lemma timeStartImpl_eq (label : string) (level : option Z) (L : string) (w : World) :
  getPersistedLabel label (level_or_default level) = Ok L ->
  timeStartImpl label level w
  = (Ok tt,
     set_timers
       (<[L := {| memory := acc_memory (timers w !! L);
                  startMemory := call_getMemory w;
                  startTime := call_getStartTime w;
                  time := acc_time (timers w !! L);
                  totalMemory := acc_total (timers w !! L) |}]> (timers w)) w).
Proof.
  intros HL. unfold timeStartImpl, bind, lift. rewrite HL.
  destruct (timers w !! L) as [t|]; reflexivity.
Qed.

Lemma timeEndImpl_known (label : string) (level : option Z) (L : string) (w : World) (t : Timer) :
  getPersistedLabel label (level_or_default level) = Ok L ->
  timers w !! L = Some t ->
  timeEndImpl label level w
  = (Ok tt,
     set_timers
       (<[L := {| memory := memory t + (Z.of_N (call_getMemory w) - Z.of_N (startMemory t));
                  startMemory := startMemory t;
                  startTime := startTime t;
                  time := (time t + call_getElapsedTime w (startTime t))%float;
                  totalMemory := N.max (totalMemory t) (call_getMemory w) |}]> (timers w)) w).
Proof.
  intros HL Ht. unfold timeEndImpl, bind, lift. rewrite HL, Ht. reflexivity.
Qed.

Lemma timeEndImpl_unknown (label : string) (level : option Z) (L : string) (w : World) :
  getPersistedLabel label (level_or_default level) = Ok L ->
  timers w !! L = None ->
  timeEndImpl label level w = (Ok tt, w).
Proof.
  intros HL Ht. unfold timeEndImpl, bind, lift. rewrite HL, Ht. reflexivity.
Qed.

Lemma same_helpers_refl (w : World) : same_helpers w w.
Proof. repeat split. Qed.

Lemma same_helpers_trans (w1 w2 w3 : World) :
  same_helpers w1 w2 -> same_helpers w2 w3 -> same_helpers w1 w3.
Proof.
  intros (a & b & c) (a' & b' & c'). repeat split; congruence.
Qed.

Lemma measures_same_helpers (w w' : World) (c : Cycle) :
  same_helpers w w' ->
  elapsed w' c = elapsed w c
  /\ end_memory w' c = end_memory w c
  /\ memory_delta w' c = memory_delta w c.
Proof.
  intros (Hs & He & Hm).
  unfold memory_delta, elapsed, end_memory, start_memory,
    call_getElapsedTime, call_getStartTime, call_getMemory; simpl.
  rewrite Hs, He, Hm. repeat split.
Qed.

Lemma run_cycle_spec (label : string) (level : option Z) (L : string) (c : Cycle) (w : World) :
  Timing w ->
  getPersistedLabel label (level_or_default level) = Ok L ->
  exists w' t,
    run_cycle label level c w = (Ok tt, w')
    /\ Timing w' /\ same_helpers w w'
    /\ timers w' !! L = Some t
    /\ time t = (acc_time (timers w !! L) + elapsed w c)%float
    /\ memory t = (acc_memory (timers w !! L) + memory_delta w c)%Z
    /\ totalMemory t = N.max (acc_total (timers w !! L)) (end_memory w c).
Proof.
  intros [Hs He] HL.
  unfold run_cycle, bind, modify, call_timeStart, call_timeEnd. simpl.
  rewrite Hs. rewrite (timeStartImpl_eq _ _ L) by assumption. simpl.
  rewrite He.
  erewrite (timeEndImpl_known _ _ L); [|assumption|simpl; apply lookup_insert_eq].
  do 2 eexists. split; [reflexivity|]. simpl.
  split; [split; assumption|]. split; [repeat split|].
  split; [apply lookup_insert_eq|]. repeat split.
Qed.

Lemma run_cycles_spec (label : string) (level : option Z) (L : string) (cs : list Cycle) :
  getPersistedLabel label (level_or_default level) = Ok L ->
  forall w, Timing w ->
  exists w',
    run_cycles label level cs w = (Ok tt, w')
    /\ Timing w' /\ same_helpers w w'
    /\ (is_Some (timers w !! L) \/ cs <> [] -> is_Some (timers w' !! L))
    /\ acc_time (timers w' !! L)
       = fold_left PrimFloat.add (map (elapsed w) cs) (acc_time (timers w !! L))
    /\ acc_memory (timers w' !! L)
       = fold_left Z.add (map (memory_delta w) cs) (acc_memory (timers w !! L))
    /\ acc_total (timers w' !! L)
       = fold_left N.max (map (end_memory w) cs) (acc_total (timers w !! L)).
Proof.
  intros HL. induction cs as [|c cs IH]; intros w Hw.
  - exists w. split; [reflexivity|]. split; [assumption|].
    split; [apply same_helpers_refl|].
    split; [intros [H|H]; [assumption | now contradiction H]|].
    repeat split.
  - destruct (run_cycle_spec label level L c w Hw HL)
      as (w1 & t & Hrun & Hw1 & Hh1 & Ht & Htime & Hmem & Htot).
    destruct (IH w1 Hw1) as (w2 & Hrun2 & Hw2 & Hh2 & Hsome & Htime2 & Hmem2 & Htot2).
    exists w2. simpl run_cycles. rewrite (bind_ok _ _ _ _ _ Hrun).
    split; [exact Hrun2|]. split; [exact Hw2|].
    split; [eapply same_helpers_trans; eassumption|].
    split; [intros _; apply Hsome; left; rewrite Ht; eauto|].
    assert (Hmap : map (elapsed w1) cs = map (elapsed w) cs
                   /\ map (memory_delta w1) cs = map (memory_delta w) cs
                   /\ map (end_memory w1) cs = map (end_memory w) cs).
    { repeat split; apply map_ext; intros c';
        destruct (measures_same_helpers w w1 c' Hh1) as (? & ? & ?); assumption. }
    destruct Hmap as (E1 & E2 & E3).
    simpl. rewrite Htime2, Hmem2, Htot2, Ht, E1, E2, E3. simpl.
    rewrite Htime, Hmem, Htot. repeat split.
Qed.





(** ** The span registry *)

Lemma timeStartTraceImpl_known (label : string) (level : option Z) (w : World) (s : SpanRef) :
  spans w !! label = Some s -> timeStartTraceImpl label level w = (Ok tt, w).
Proof. intros H. unfold timeStartTraceImpl. now rewrite H. Qed.

Lemma timeStartTraceImpl_records (label : string) (level : option Z) (w : World) :
  is_Some (spans (snd (timeStartTraceImpl label level w)) !! label).
Proof.
  unfold timeStartTraceImpl. destruct (spans w !! label) as [s|] eqn:E; simpl.
  - rewrite E. eauto.
  - rewrite lookup_insert_eq. eauto.
Qed.

Lemma timeEndTraceImpl_no_timer (label : string) (level : option Z) (w : World) :
  timers w !! label = None -> timeEndTraceImpl label level w = (Ok tt, w).
Proof. intros H. unfold timeEndTraceImpl. now rewrite H. Qed.

Lemma getPersistedLabel_cases (label : string) (level : Z) (L : string) :
  getPersistedLabel label level = Ok L ->
  (level = 1%Z /\ L = "# " ++ label)
  \/ (level = 2%Z /\ L = "## " ++ label)
  \/ (level = 3%Z /\ L = label)
  \/ ((3 < level)%Z /\ L = repeat_string "  " (Z.to_nat (level - 4)) ++ "- " ++ label).
Proof.
  intros H.
  destruct (Z_lt_le_dec level 1) as [Hlt|Hge].
  { rewrite getPersistedLabel_below_1 in H by assumption. discriminate. }
  destruct (Z_lt_le_dec 3 level) as [H3|H3].
  - rewrite getPersistedLabel_bullet in H by assumption.
    injection H as <-. auto.
  - assert (level = 1 \/ level = 2 \/ level = 3)%Z as [ -> | [ -> | -> ] ] by lia;
      injection H as <-; auto.
Qed.



(** C8, evaluated: a fresh process initialised with [trace] starts a span for
    ["build"]; the matching [timeEnd] finds no record in [timers], does
    nothing, and the span is never ended. *)
Theorem tracing_timeEnd_leaves_span_open :
  let w1 := snd (call_timeStart "build" None tracing_world) in
  Tracing w1
  /\ spans w1 !! "build" = Some 0
  /\ tracer w1
     = [StartSpan "build" 0;
        SetAttributes 0 [("memory", ANumber 0); ("startMemory", AUndefined);
                         ("endMemory", AUndefined); ("totalMemory", ANumber 0)];
        SetAttribute 0 "startMemory" (ANumber 100)]
  /\ call_timeEnd "build" None w1 = (Ok tt, w1)
  /\ EndSpan 0 ∉ tracer (snd (call_timeEnd "build" None w1)).
Proof.
  cbv zeta. split; [split; reflexivity|].
  split; [vm_compute; reflexivity|].
  split; [vm_compute; reflexivity|].
  assert (Hend : call_timeEnd "build" None (snd (call_timeStart "build" None tracing_world))
                 = (Ok tt, snd (call_timeStart "build" None tracing_world))).
  { unfold call_timeEnd.
    change (timeEnd (snd (call_timeStart "build" None tracing_world)))
      with TimeEndTraceImpl.
    apply timeEndTraceImpl_no_timer. vm_compute. reflexivity. }
  split; [exact Hend|]. rewrite Hend. simpl snd.
  intros Hin. vm_compute in Hin.
  repeat (apply elem_of_cons in Hin as [Hin|Hin]; [discriminate Hin|]).
  now apply elem_of_nil in Hin.
Qed.

(** ** Initialisation *)

Lemma setTimeHelpers_frame (w : World) :
  timers (setTimeHelpers w) = timers w
  /\ spans (setTimeHelpers w) = spans w
  /\ timeStart (setTimeHelpers w) = timeStart w
  /\ timeEnd (setTimeHelpers w) = timeEnd w
  /\ heap (setTimeHelpers w) = heap w
  /\ tracer (setTimeHelpers w) = tracer w.
Proof.
  unfold setTimeHelpers.
  destruct (has_hrtime (env w)); [|destruct (has_performance_now (env w))];
    simpl; destruct (has_memoryUsage (env w)); repeat split.
Qed.

Lemma imap_getPluginWithSpan (l : list loc) :
  imap (fun i p => getPluginWithSpan p i) l = l.
Proof.
  unfold getPluginWithSpan.
  change (fun (_ : nat) (p : loc) => p) with (@const (loc -> loc) nat id).
  rewrite imap_const. apply list_fmap_id.
Qed.

Lemma set_plugins_id (o : InputOptions) : set_plugins (plugins o) o = o.
Proof. now destruct o. Qed.

(** [map(getPluginWithTimers)] allocates one fresh object per plugin, after
    the objects the heap already holds, and leaves those untouched. *)
Lemma array_map_getPluginWithTimers (l : list loc) :
  forall (index : nat) (w : World),
  exists objs,
    array_map getPluginWithTimers l index w
    = (seq (length (heap w)) (length l), set_heap (heap w ++ objs) w)
    /\ length objs = length l
    /\ forall k p o,
         l !! k = Some p ->
         heap w !! p = Some o ->
         objs !! k = Some (timed_object o p (length (heap w) + k) (index + k)).
Proof.
  induction l as [|p0 l IH]; intros index w.
  - exists []. simpl. rewrite app_nil_r. split; [now destruct w|].
    split; [reflexivity|]. intros k p o Hk. discriminate Hk.
  - set (o0 := timed_object (default [] (heap w !! p0)) p0 (length (heap w)) index).
    destruct (IH (S index) (set_heap (heap w ++ [o0]) w)) as (objs & Hrun & Hlen & Hobjs).
    change (array_map getPluginWithTimers (p0 :: l) index w)
      with (let '(ys, w2) :=
              array_map getPluginWithTimers l (S index) (set_heap (heap w ++ [o0]) w) in
            (length (heap w) :: ys, w2)).
    rewrite Hrun. exists (o0 :: objs). simpl heap in *.
    rewrite length_app in *. simpl length in *.
    split.
    { f_equal.
      - simpl. f_equal. f_equal. lia.
      - unfold set_heap. simpl. now rewrite <- app_assoc. }
    split; [now rewrite Hlen|].
    intros [|k] p o Hk Hp.
    + simpl in Hk. subst o0. injection Hk as ->. simpl. rewrite Hp. simpl.
      do 2 f_equal; lia.
    + simpl in Hk. simpl.
      rewrite (Hobjs k p o Hk) by (now apply lookup_app_l_Some).
      do 2 f_equal; lia.
Qed.

Lemma initialiseTimers_disabled (o : InputOptions) (w : World) :
  perf o = false -> trace o = false ->
  initialiseTimers o w = (o, set_slots NOOP_start NOOP_end w).
Proof. intros Hp Ht. unfold initialiseTimers. now rewrite Hp, Ht. Qed.

Lemma run_calls_disabled (cs : list TimerCall) (w : World) :
  Disabled w -> run_calls cs w = (Ok tt, w).
Proof.
  intros [Hs He]. induction cs as [|c cs IH]; [reflexivity|].
  simpl. unfold bind.
  destruct c; simpl; unfold call_timeStart, call_timeEnd; rewrite ?Hs, ?He; exact IH.
Qed.

Lemma initialiseTimers_trace_only (o : InputOptions) (w : World) :
  perf o = false -> trace o = true ->
  initialiseTimers o w
  = (o, set_slots TimeStartTraceImpl TimeEndTraceImpl
          (setTimeHelpers (set_spans ∅ (set_slots NOOP_start NOOP_end w)))).
Proof.
  intros Hp Ht. unfold initialiseTimers. rewrite Hp, Ht.
  now rewrite imap_getPluginWithSpan, set_plugins_id.
Qed.

(** What the [perf] branch leaves, and what the [trace] branch then adds. *)
Lemma initialiseTimers_perf (o : InputOptions) (w : World) :
  perf o = true ->
  exists objs,
    initialiseTimers o w
    = (set_plugins (seq (length (heap w)) (length (plugins o))) o,
       let w2 :=
         set_heap (heap w ++ objs)
           (set_slots TimeStartImpl TimeEndImpl (setTimeHelpers (set_timers ∅ w))) in
       if trace o
       then set_slots TimeStartTraceImpl TimeEndTraceImpl
              (setTimeHelpers (set_spans ∅ w2))
       else w2)
    /\ length objs = length (plugins o)
    /\ forall k p obj,
         plugins o !! k = Some p ->
         heap w !! p = Some obj ->
         objs !! k = Some (timed_object obj p (length (heap w) + k) k).
Proof.
  intros Hp. unfold initialiseTimers. rewrite Hp.
  set (w1 := set_slots TimeStartImpl TimeEndImpl (setTimeHelpers (set_timers ∅ w))).
  assert (Hh : heap w1 = heap w).
  { destruct (setTimeHelpers_frame (set_timers ∅ w)) as (_ & _ & _ & _ & Hh & _).
    exact Hh. }
  destruct (array_map_getPluginWithTimers (plugins o) 0 w1) as (objs & Hrun & Hlen & Hobjs).
  rewrite Hrun, Hh in *. exists objs. split; [|split; [exact Hlen|]].
  - simpl trace. destruct (trace o); [|reflexivity].
    simpl plugins. now rewrite imap_getPluginWithSpan.
  - intros k p obj Hk Hobj. exact (Hobjs k p obj Hk Hobj).
Qed.

(** C3, as stated, fails when [perf] is set as well: the Timing branch has
    already replaced the plugin by a fresh object whose [transform] is a
    timing wrapper, and the tracing branch keeps that object. *)
Lemma trace_with_perf_rewrites_plugins :
  let r := initialiseTimers perf_trace_options loaded in
  trace perf_trace_options = true
  /\ Tracing (snd r)
  /\ plugins (fst r) = [1]
  /\ plugins (fst r) <> plugins perf_trace_options
  /\ (heap (snd r) !! 1) ≫= get_prop "transform"
     = Some (PTimed "plugin 0 (p) - transform" 0 1 (PNative 0)).
Proof.
  cbv zeta. split; [reflexivity|]. split; [split; reflexivity|].
  split; [reflexivity|]. split; [discriminate|]. vm_compute. reflexivity.
Qed.

(** C3 (amended): whenever [trace] is set, the two slots are bound to the
    tracing implementations and the span registry is emptied.  With [perf]
    unset the plugin list keeps its elements, the same references as before,
    and no object is allocated.  With [perf] set the list is the one the
    Timing branch built: every plugin is replaced by a fresh object, and the
    fresh object of a plugin holds timing wrappers on its allow-listed
    hooks. *)
Theorem initialiseTimers_trace (o : InputOptions) (w : World) :
  trace o = true ->
  let r := initialiseTimers o w in
  Tracing (snd r)
  /\ spans (snd r) = ∅
  /\ (perf o = false -> plugins (fst r) = plugins o /\ heap (snd r) = heap w)
  /\ (perf o = true ->
      plugins (fst r) = seq (length (heap w)) (length (plugins o))
      /\ forall k p obj,
           plugins o !! k = Some p ->
           heap w !! p = Some obj ->
           heap (snd r) !! (length (heap w) + k)
           = Some (timed_object obj p (length (heap w) + k) k)).
Proof.
  intros Ht. cbv zeta. destruct (perf o) eqn:Hp.
  - destruct (initialiseTimers_perf o w Hp) as (objs & Hinit & Hlen & Hobjs).
    rewrite Hinit, Ht. simpl fst. simpl snd.
    match goal with
    | |- context [setTimeHelpers ?w0] =>
        destruct (setTimeHelpers_frame w0) as (_ & Hsp & _ & _ & Hh & _)
    end.
    split; [split; reflexivity|]. split; [simpl; now rewrite Hsp|].
    split; [discriminate|]. intros _. split; [reflexivity|].
    intros k p obj Hk Hobj. simpl. rewrite Hh. simpl.
    assert (Hlt : k < length objs) by (rewrite Hlen; eapply lookup_lt_Some; eassumption).
    rewrite lookup_app_r by lia.
    replace (length (heap w) + k - length (heap w)) with k by lia.
    now apply Hobjs.
  - rewrite (initialiseTimers_trace_only o w Hp Ht). simpl fst. simpl snd.
    match goal with
    | |- context [setTimeHelpers ?w0] =>
        destruct (setTimeHelpers_frame w0) as (_ & Hsp & _ & _ & Hh & _)
    end.
    split; [split; reflexivity|]. split; [simpl; now rewrite Hsp|].
    split; [|discriminate]. intros _.
    split; [reflexivity | simpl; now rewrite Hh].
Qed.

Lemma initialiseTimers_trace_witness :
  trace trace_options = true
  /\ Tracing tracing_world
  /\ plugins (fst (initialiseTimers trace_options loaded)) = [0].
Proof.
  destruct (initialiseTimers_trace trace_options loaded eq_refl)
    as (Hmode & _ & Hplain & _).
  split; [reflexivity|]. split; [exact Hmode|].
  destruct (Hplain eq_refl) as [Hp _]. exact Hp.
Defined.

(** C4, as stated, fails after a Timing activation: initialising with both
    flags unset does not empty [timers], so the snapshot still shows what the
    earlier activation measured. *)
Lemma disabled_keeps_earlier_timings :
  let r := initialiseTimers disabled_options timed_before in
  let w' := snd (run_calls [CallStart "x" None; CallEnd "x" None] (snd r)) in
  Disabled (snd r)
  /\ getTimings w' !! "build" = Some (3.5%float, 40%Z, 150%N)
  /\ getTimings w' <> ∅.
Proof.
  cbv zeta. split; [split; reflexivity|].
  assert (H : getTimings
                (snd (run_calls [CallStart "x" None; CallEnd "x" None]
                        (snd (initialiseTimers disabled_options timed_before))))
              !! "build" = Some (3.5%float, 40%Z, 150%N))
    by (vm_compute; reflexivity).
  split; [exact H|]. intros Hempty. rewrite Hempty, lookup_empty in H. discriminate H.
Qed.


(** ** Wrapped hooks *)

Lemma level_4_label (label : string) :
  getPersistedLabel label (level_or_default (Some 4%Z)) = Ok ("- " ++ label).
Proof. reflexivity. Qed.

Lemma set_timers_id (w : World) : set_timers (timers w) w = w.
Proof. now destruct w. Qed.

(** At level 4 the two Timing implementations return normally and touch
    nothing but [timers]. *)
Lemma timeStartImpl_level_4 (label : string) (w : World) :
  exists T, timeStartImpl label (Some 4%Z) w = (Ok tt, set_timers T w).
Proof. eexists. apply (timeStartImpl_eq _ _ _ _ (level_4_label label)). Qed.

Lemma timeEndImpl_level_4 (label : string) (w : World) :
  exists T, timeEndImpl label (Some 4%Z) w = (Ok tt, set_timers T w).
Proof.
  destruct (timers w !! ("- " ++ label)) as [t|] eqn:E.
  - eexists. apply (timeEndImpl_known _ _ _ _ t (level_4_label label) E).
  - exists (timers w). rewrite set_timers_id.
    apply (timeEndImpl_unknown _ _ _ _ (level_4_label label) E).
Qed.

(** Whatever the slot is bound to, [timeStart(label, 4)] returns normally. *)
Lemma call_timeStart_level_4 (label : string) (w : World) :
  call_timeStart label (Some 4%Z) w = (Ok tt, snd (call_timeStart label (Some 4%Z) w)).
Proof.
  unfold call_timeStart. destruct (timeStart w).
  - reflexivity.
  - destruct (timeStartImpl_level_4 label w) as [T ->]. reflexivity.
  - unfold timeStartTraceImpl. destruct (spans w !! label); reflexivity.
Qed.

Lemma call_timeStart_timing (label : string) (level : option Z) (w : World) :
  Timing w -> call_timeStart label level w = timeStartImpl label level w.
Proof. intros [H _]. unfold call_timeStart. now rewrite H. Qed.

Lemma call_timeEnd_timing (label : string) (level : option Z) (w : World) :
  Timing w -> call_timeEnd label level w = timeEndImpl label level w.
Proof. intros [_ H]. unfold call_timeEnd. now rewrite H. Qed.




Section Hooks.

Variable native : fid -> Value -> list Value -> JS Value.


Lemma timed_hook_returns (timerLabel : string) (call_orig : JS Value)
    (w w2 : World) (v : Value) :
  Timing w ->
  call_orig (snd (timeStartImpl timerLabel (Some 4%Z) w)) = (Ok v, w2) ->
  Timing w2 ->
  timed_hook timerLabel call_orig w
  = match is_thenable v with
    | Some p =>
        promise_then p timerLabel
          (snd (timeStartImpl (timerLabel ++ " (async)") (Some 4%Z)
                  (snd (timeEndImpl timerLabel (Some 4%Z) w2))))
    | None => (Ok v, snd (timeEndImpl timerLabel (Some 4%Z) w2))
    end.
Proof.
  intros Hw H Hw2. unfold timed_hook.
  rewrite (bind_ok _ _ _ _ _ (call_timeStart_level_4 timerLabel w)).
  rewrite (call_timeStart_timing _ _ _ Hw).
  rewrite (bind_ok _ _ _ _ _ H).
  destruct (timeEndImpl_level_4 timerLabel w2) as [T HT].
  rewrite (bind_ok _ _ _ tt (set_timers T w2))
    by (rewrite call_timeEnd_timing by assumption; exact HT).
  rewrite HT. cbn [snd].
  destruct (is_thenable v) as [p|]; [|reflexivity].
  assert (Hw3 : Timing (set_timers T w2)) by exact Hw2.
  destruct (timeStartImpl_level_4 (timerLabel ++ " (async)") (set_timers T w2)) as [T' HT'].
  rewrite (bind_ok _ _ _ tt (set_timers T' (set_timers T w2)))
    by (rewrite call_timeStart_timing by assumption; exact HT').
  now rewrite HT'.
Qed.


End Hooks.


(** ** What a wrapped call leaves in the registry and in the promise store *)











Section WrappedCalls.

Variable native : fid -> Value -> list Value -> JS Value.



End WrappedCalls.



Section DeferredResults.

Variable native : fid -> Value -> list Value -> JS Value.




End DeferredResults.





(** * Further properties of the module *)

(** ** Helper selection *)


Lemma timing_cycles_accumulate_aux
    (label : string) (level : option Z) (L : string) (cs : list Cycle) (w : World) :
  Timing w ->
  getPersistedLabel label (level_or_default level) = Ok L ->
  timers w !! L = None ->
  cs <> [] ->
  exists w' t,
    run_cycles label level cs w = (Ok tt, w')
    /\ timers w' !! L = Some t
    /\ time t = fold_left PrimFloat.add (map (elapsed w) cs) 0%float
    /\ memory t = fold_left Z.add (map (memory_delta w) cs) 0%Z
    /\ totalMemory t = fold_left N.max (map (end_memory w) cs) 0%N.
Proof.
  intros Hw HL Hnone Hne.
  destruct (run_cycles_spec label level L cs HL w Hw)
    as (w' & Hrun & _ & _ & Hsome & Htime & Hmem & Htot).
  destruct Hsome as [t Ht]; [now right|].
  exists w', t. rewrite Ht, Hnone in *. simpl in *.
  split; [assumption|]. split; [reflexivity|]. repeat split; assumption.
Qed.

Lemma fold_left_add_zeros (l : list float) :
  Forall (fun x => x = 0%float) l -> fold_left PrimFloat.add l 0%float = 0%float.
Proof.
  induction 1 as [|x l -> _ IH]; [reflexivity|]. simpl. exact IH.
Qed.

Lemma fold_left_Zadd_zeros (l : list Z) :
  Forall (fun x => x = 0%Z) l -> fold_left Z.add l 0%Z = 0%Z.
Proof.
  induction 1 as [|x l -> _ IH]; [reflexivity|]. simpl. exact IH.
Qed.


(** ** Keys of the timer registry *)

Lemma string_app_inv_head (s a b : string) : s ++ a = s ++ b -> a = b.
Proof.
  induction s as [|c s IH]; simpl; [trivial|].
  intros H. injection H as H. now apply IH.
Qed.

(** X3: at one level, two different names never share a key: the label is
    recovered from the key. *)
Theorem getPersistedLabel_name_inj (name1 name2 : string) (level : Z) (K : string) :
  getPersistedLabel name1 level = Ok K ->
  getPersistedLabel name2 level = Ok K ->
  name1 = name2.
Proof.
  intros H1 H2.
  apply getPersistedLabel_cases in H1, H2.
  destruct H1 as [[-> ->]|[[-> ->]|[[-> ->]|[Hl1 ->]]]];
    destruct H2 as [[E2 H2]|[[E2 H2]|[[E2 H2]|[E2 H2]]]]; try lia; try discriminate E2.
  - now apply (string_app_inv_head "# ").
  - now apply (string_app_inv_head "## ").
  - exact H2.
  - apply (string_app_inv_head "- ").
    now apply (string_app_inv_head (repeat_string "  " (Z.to_nat (level - 4)))).
Qed.

Lemma getPersistedLabel_name_inj_witness :
  getPersistedLabel "load" 4 = Ok "- load"
  /\ (forall name, getPersistedLabel name 4 = Ok "- load" -> name = "load").
Proof.
  split; [reflexivity|]. intros name H.
  exact (getPersistedLabel_name_inj name "load" 4 "- load" H eq_refl).
Defined.

(** X4: across levels keys do collide: what level [n > 3] (or 1, or 2)
    renders for a name is also what level 3, the default, renders for the
    already rendered text, so the two calls start, end and report the same
    record. *)
Theorem getPersistedLabel_levels_alias (name : string) (level : Z) (K : string) (w : World) :
  getPersistedLabel name level = Ok K ->
  getPersistedLabel K 3 = Ok K
  /\ timeStartImpl K None w = timeStartImpl name (Some level) w
  /\ timeEndImpl K None w = timeEndImpl name (Some level) w.
Proof.
  intros H. split; [reflexivity|].
  unfold timeStartImpl, timeEndImpl, bind, lift. simpl level_or_default.
  rewrite H. split; reflexivity.
Qed.

Lemma getPersistedLabel_levels_alias_witness :
  getPersistedLabel "x" 4 = Ok "- x"
  /\ timeEndImpl "- x" None timing_world = timeEndImpl "x" (Some 4%Z) timing_world.
Proof.
  split; [reflexivity|].
  exact (proj2 (proj2 (getPersistedLabel_levels_alias "x" 4 "- x" timing_world eq_refl))).
Defined.

(** ** What the two Timing implementations touch *)

Lemma timeStartImpl_throws (label : string) (level : option Z) (e : Value) (w : World) :
  getPersistedLabel label (level_or_default level) = Throw e ->
  timeStartImpl label level w = (Throw e, w).
Proof. intros H. unfold timeStartImpl, bind, lift. now rewrite H. Qed.

Lemma timeEndImpl_throws (label : string) (level : option Z) (e : Value) (w : World) :
  getPersistedLabel label (level_or_default level) = Throw e ->
  timeEndImpl label level w = (Throw e, w).
Proof. intros H. unfold timeEndImpl, bind, lift. now rewrite H. Qed.

Lemma timer_ops_frame_aux (label : string) (level : option Z) (w : World) :
  exists T1 T2,
    snd (timeStartImpl label level w) = set_timers T1 w
    /\ snd (timeEndImpl label level w) = set_timers T2 w.
Proof.
  destruct (getPersistedLabel label (level_or_default level)) as [L|e] eqn:HL.
  - rewrite (timeStartImpl_eq _ _ _ _ HL).
    destruct (timers w !! L) as [t|] eqn:Ht.
    + rewrite (timeEndImpl_known _ _ _ _ _ HL Ht). do 2 eexists. split; reflexivity.
    + rewrite (timeEndImpl_unknown _ _ _ _ HL Ht). eexists _, (timers w).
      split; [reflexivity | now rewrite set_timers_id].
  - rewrite (timeStartImpl_throws _ _ _ _ HL), (timeEndImpl_throws _ _ _ _ HL).
    exists (timers w), (timers w). rewrite set_timers_id. split; reflexivity.
Qed.

(** X5: [timeStartImpl] and [timeEndImpl] write the registry and nothing
    else, and in the registry only the record under the rendered label:
    every other key keeps its record, whether the call returns or throws. *)
Theorem timer_ops_frame (label : string) (level : option Z) (w : World) :
  exists T1 T2,
    snd (timeStartImpl label level w) = set_timers T1 w
    /\ snd (timeEndImpl label level w) = set_timers T2 w
    /\ forall K,
         getPersistedLabel label (level_or_default level) <> Ok K ->
         T1 !! K = timers w !! K /\ T2 !! K = timers w !! K.
Proof.
  destruct (getPersistedLabel label (level_or_default level)) as [L|e] eqn:HL.
  - rewrite (timeStartImpl_eq _ _ _ _ HL).
    destruct (timers w !! L) as [t|] eqn:Ht.
    + rewrite (timeEndImpl_known _ _ _ _ _ HL Ht). do 2 eexists.
      split; [reflexivity|]. split; [reflexivity|].
      intros K HK. assert (L <> K) by congruence.
      split; now apply lookup_insert_ne.
    + rewrite (timeEndImpl_unknown _ _ _ _ HL Ht). eexists _, (timers w).
      split; [reflexivity|]. split; [now rewrite set_timers_id|].
      intros K HK. assert (L <> K) by congruence.
      split; [now apply lookup_insert_ne | reflexivity].
  - rewrite (timeStartImpl_throws _ _ _ _ HL), (timeEndImpl_throws _ _ _ _ HL).
    exists (timers w), (timers w). rewrite set_timers_id. repeat split.
Qed.

Lemma timer_ops_frame_witness :
  getPersistedLabel "other" (level_or_default None) <> Ok "build"
  /\ timers (snd (timeEndImpl "other" None timed_before)) !! "build"
     = timers timed_before !! "build".
Proof.
  assert (H : getPersistedLabel "other" (level_or_default None) <> Ok "build")
    by discriminate.
  split; [exact H|].
  destruct (timer_ops_frame "other" None timed_before) as (T1 & T2 & _ & -> & Hk).
  exact (proj2 (Hk "build" H)).
Defined.



(** ** Intervals *)


(** ** The snapshot *)


(** ** What an activation never undoes *)

Lemma grows_refl (w : World) : grows w w.
Proof. intros K. split; [trivial | lia]. Qed.

Lemma grows_trans (w1 w2 w3 : World) : grows w1 w2 -> grows w2 w3 -> grows w1 w3.
Proof.
  intros H12 H23 K. destruct (H12 K) as [A B], (H23 K) as [C D].
  split; [auto | lia].
Qed.

Lemma timeStartImpl_grows (label : string) (level : option Z) (w : World) :
  grows w (snd (timeStartImpl label level w)).
Proof.
  destruct (getPersistedLabel label (level_or_default level)) as [L|e] eqn:HL.
  - rewrite (timeStartImpl_eq _ _ _ _ HL). intros K. simpl.
    destruct (decide (L = K)) as [<-|Hne].
    + rewrite lookup_insert_eq. simpl. split; [eauto | lia].
    + rewrite lookup_insert_ne by assumption. split; [trivial | lia].
  - rewrite (timeStartImpl_throws _ _ _ _ HL). apply grows_refl.
Qed.

Lemma timeEndImpl_grows (label : string) (level : option Z) (w : World) :
  grows w (snd (timeEndImpl label level w)).
Proof.
  destruct (getPersistedLabel label (level_or_default level)) as [L|e] eqn:HL.
  - destruct (timers w !! L) as [t|] eqn:Ht.
    + rewrite (timeEndImpl_known _ _ _ _ _ HL Ht). intros K. simpl.
      destruct (decide (L = K)) as [<-|Hne].
      * rewrite lookup_insert_eq, Ht. simpl. split; [eauto | lia].
      * rewrite lookup_insert_ne by assumption. split; [trivial | lia].
    + rewrite (timeEndImpl_unknown _ _ _ _ HL Ht). apply grows_refl.
  - rewrite (timeEndImpl_throws _ _ _ _ HL). apply grows_refl.
Qed.

Lemma timeStartImpl_slots (label : string) (level : option Z) (w : World) :
  timeStart (snd (timeStartImpl label level w)) = timeStart w
  /\ timeEnd (snd (timeStartImpl label level w)) = timeEnd w.
Proof.
  destruct (timer_ops_frame_aux label level w) as (T1 & T2 & -> & _). split; reflexivity.
Qed.

Lemma timeEndImpl_slots (label : string) (level : option Z) (w : World) :
  timeStart (snd (timeEndImpl label level w)) = timeStart w
  /\ timeEnd (snd (timeEndImpl label level w)) = timeEnd w.
Proof.
  destruct (timer_ops_frame_aux label level w) as (T1 & T2 & _ & -> ). split; reflexivity.
Qed.

Lemma run_event_timing (ev : Event) (w : World) :
  Timing w ->
  Timing (snd (run_event ev w)) /\ grows w (snd (run_event ev w)).
Proof.
  intros Hw. destruct ev as [e|[label level|label level]]; simpl.
  - split; [exact Hw | exact (grows_refl w)].
  - rewrite (call_timeStart_timing _ _ _ Hw).
    destruct (timeStartImpl_slots label level w) as [A B].
    split; [destruct Hw; split; congruence | apply timeStartImpl_grows].
  - rewrite (call_timeEnd_timing _ _ _ Hw).
    destruct (timeEndImpl_slots label level w) as [A B].
    split; [destruct Hw; split; congruence | apply timeEndImpl_grows].
Qed.

(** X9: within a Timing activation the registry only grows.  Whatever
    sequence of [timeStart] and [timeEnd] calls is made, with whatever
    labels and levels and with the host changing in between, and even if one
    of the calls throws, no record is removed and no label's peak memory
    gets smaller. *)
Theorem timing_registry_grows (evs : list Event) (w : World) :
  Timing w ->
  let w' := snd (run_events evs w) in
  Timing w'
  /\ forall K,
       (is_Some (getTimings w !! K) -> is_Some (getTimings w' !! K))
       /\ (acc_total (timers w !! K) <= acc_total (timers w' !! K))%N.
Proof.
  cbv zeta. revert w. induction evs as [|ev evs IH]; intros w Hw.
  - split; [exact Hw|]. intros K. split; [trivial | simpl; lia].
  - destruct (run_event_timing ev w Hw) as [Hw1 Hg1].
    simpl run_events. unfold bind.
    destruct (run_event ev w) as [[[]|e] w1] eqn:E; simpl in Hw1, Hg1.
    + destruct (IH w1 Hw1) as [Hw' Hg']. split; [exact Hw'|].
      intros K. destruct (Hg1 K) as [A B], (Hg' K) as [C D].
      unfold getTimings in *. rewrite !lookup_fmap in *.
      rewrite !fmap_is_Some in *. split; [auto | lia].
    + simpl. split; [exact Hw1|]. intros K. destruct (Hg1 K) as [A B].
      unfold getTimings. rewrite !lookup_fmap, !fmap_is_Some. split; assumption.
Qed.

Lemma timing_registry_grows_witness :
  Timing timed_before
  /\ is_Some (getTimings timed_before !! "build")
  /\ is_Some (getTimings
                (snd (run_events [Call (CallStart "x" (Some 0%Z));
                                  Tick (host 99 1);
                                  Call (CallEnd "build" None)] timed_before))
              !! "build").
Proof.
  assert (Hw : Timing timed_before) by (split; reflexivity).
  assert (Hs : is_Some (getTimings timed_before !! "build")) by (vm_compute; eauto).
  split; [exact Hw|]. split; [exact Hs|].
  destruct (timing_registry_grows
              [Call (CallStart "x" (Some 0%Z)); Tick (host 99 1);
               Call (CallEnd "build" None)] timed_before Hw) as [_ Hg].
  exact (proj1 (Hg "build") Hs).
Defined.

(** ** The tracing implementations *)


(** ** Tracing after a Timing activation *)

Lemma trace_only_world (o : InputOptions) (w0 : World) :
  perf o = false -> trace o = true ->
  let w := snd (initialiseTimers o w0) in
  Tracing w /\ timers w = timers w0 /\ spans w = ∅ /\ tracer w = tracer w0.
Proof.
  intros Hp Ht. cbv zeta. rewrite (initialiseTimers_trace_only o w0 Hp Ht). cbn [snd].
  match goal with |- context [setTimeHelpers ?x] =>
    destruct (setTimeHelpers_frame x) as (A & B & _ & _ & _ & C)
  end.
  split; [split; reflexivity|]. simpl. rewrite A, B, C. repeat split.
Qed.

(** X12: the timer registry outlives a Timing activation, and the tracing
    [timeEnd] consults it.  After an initialisation with [trace] only, a
    [timeEnd] for a label that still has a timer record, made before any
    [timeStart] for it, finds no span and throws a TypeError; the world is
    left as it was. *)
Theorem stale_timer_makes_timeEnd_throw
    (o : InputOptions) (w0 : World) (label : string) (level : option Z) (t : Timer) :
  perf o = false -> trace o = true ->
  timers w0 !! label = Some t ->
  call_timeEnd label level (snd (initialiseTimers o w0))
  = (Throw VTypeError, snd (initialiseTimers o w0)).
Proof.
  intros Hp Ht Hrec.
  destruct (trace_only_world o w0 Hp Ht) as ([_ He] & Htm & Hsp & _).
  unfold call_timeEnd. rewrite He. unfold timeEndTraceImpl.
  rewrite Htm, Hrec, Hsp, lookup_empty. reflexivity.
Qed.

Lemma stale_timer_makes_timeEnd_throw_witness :
  perf trace_options = false /\ trace trace_options = true
  /\ is_Some (timers timed_before !! "build")
  /\ fst (call_timeEnd "build" None (snd (initialiseTimers trace_options timed_before)))
     = Throw VTypeError.
Proof.
  assert (Ht : timers timed_before !! "build"
               = Some {| memory := 40; startMemory := 120; startTime := (10, 0)%float;
                         time := 3.5; totalMemory := 150 |})
    by (vm_compute; reflexivity).
  split; [reflexivity|]. split; [reflexivity|]. split; [rewrite Ht; eauto|].
  rewrite (stale_timer_makes_timeEnd_throw trace_options timed_before "build" None _
             eq_refl eq_refl Ht).
  reflexivity.
Defined.


(** ** The instrumenter *)




Lemma is_digit_pretty_N_char (x : N) : is_digit (pretty_N_char x) = true.
Proof.
  unfold pretty_N_char.
  destruct x as [|p]; [reflexivity|].
  do 4 (destruct p as [p|p|]; try reflexivity).
Qed.

Lemma all_digits_pretty_N_go (x : N) :
  forall s, all_digits s = true -> all_digits (pretty_N_go x s) = true.
Proof.
  induction (N.lt_wf_0 x) as [x _ IH]. intros s Hs.
  destruct (N.eq_dec x 0%N) as [->|Hx]; [now rewrite pretty_N_go_0|].
  rewrite pretty_N_go_step by lia.
  apply IH; [apply N.div_lt; lia|].
  simpl. now rewrite is_digit_pretty_N_char.
Qed.

Lemma all_digits_pretty (n : nat) : all_digits (pretty n) = true.
Proof.
  unfold pretty, pretty_nat, pretty, pretty_N.
  destruct (decide (N.of_nat n = 0%N)); [reflexivity|].
  now apply all_digits_pretty_N_go.
Qed.

Lemma string_app_assoc (a b c : string) : (a ++ b) ++ c = a ++ (b ++ c).
Proof.
  induction a as [|x a IH]; [reflexivity|].
  change (String x ((a ++ b) ++ c) = String x (a ++ (b ++ c))). now rewrite IH.
Qed.

Lemma digits_then_space (d1 d2 r1 r2 : string) :
  all_digits d1 = true -> all_digits d2 = true ->
  d1 ++ String " " r1 = d2 ++ String " " r2 ->
  d1 = d2.
Proof.
  revert d2. induction d1 as [|c1 d1 IH]; intros [|c2 d2] H1 H2 H; simpl in *.
  - reflexivity.
  - injection H as <- _. discriminate H2.
  - injection H as -> _. discriminate H1.
  - injection H as <- H. apply andb_prop in H1 as [_ H1], H2 as [_ H2].
    f_equal. now apply IH.
Qed.

Lemma timerLabel_of_split (o : PluginObj) (index : nat) (hook : string) :
  exists rest,
    timerLabel_of o index hook = "plugin " ++ pretty index ++ String " " rest
    /\ forall hook',
         timerLabel_of o index hook = timerLabel_of o index hook' -> hook = hook'.
Proof.
  unfold timerLabel_of. destruct (plugin_name o) as [n|].
  - eexists. split.
    + rewrite !string_app_assoc. simpl. reflexivity.
    + intros hook' H. rewrite !string_app_assoc in H.
      do 6 apply string_app_inv_head in H. exact H.
  - eexists. split.
    + rewrite !string_app_assoc. simpl. reflexivity.
    + intros hook' H. rewrite !string_app_assoc in H.
      do 3 apply string_app_inv_head in H. exact H.
Qed.

(** X15: the labels the instrumenter builds tell plugins and hooks apart:
    two wrappers with the same label belong to the same index, whatever the
    plugins are called, and two wrappers of one plugin with the same label
    are for the same hook. *)
Theorem timerLabel_of_distinct (o1 o2 : PluginObj) (i j : nat) (h1 h2 : string) :
  timerLabel_of o1 i h1 = timerLabel_of o2 j h2 ->
  i = j /\ (o1 = o2 -> h1 = h2).
Proof.
  intros H.
  destruct (timerLabel_of_split o1 i h1) as (r1 & E1 & Hh).
  destruct (timerLabel_of_split o2 j h2) as (r2 & E2 & _).
  assert (Hij : i = j).
  { rewrite E1, E2 in H. apply string_app_inv_head in H.
    apply digits_then_space in H; [|apply all_digits_pretty..].
    now apply (inj pretty) in H. }
  split; [exact Hij|]. intros <-. subst j. now apply Hh.
Qed.

Lemma timerLabel_of_distinct_witness :
  timerLabel_of plugin_p 0 "transform" = timerLabel_of plugin_p 0 "transform"
  /\ timerLabel_of plugin_p 0 "transform" <> timerLabel_of [] 1 "transform".
Proof.
  split; [reflexivity|]. intros H.
  destruct (timerLabel_of_distinct plugin_p [] 0 1 "transform" "transform" H) as [E _].
  discriminate E.
Defined.

(** X16: an initialisation with [perf] starts from nothing: whatever the
    registry held, the snapshot is empty right after the call (with or
    without [trace]).  The plugin list keeps its length, its [k]-th element
    is the [k]-th object allocated by the call, and the objects that were on
    the heap, the original plugins among them, are left as they were. *)
Theorem initialiseTimers_perf_resets (o : InputOptions) (w : World) :
  perf o = true ->
  let r := initialiseTimers o w in
  getTimings (snd r) = ∅
  /\ length (plugins (fst r)) = length (plugins o)
  /\ (forall k p, plugins (fst r) !! k = Some p -> p = length (heap w) + k)
  /\ (forall l obj, heap w !! l = Some obj -> heap (snd r) !! l = Some obj)
  /\ perf (fst r) = perf o /\ trace (fst r) = trace o.
Proof.
  intros Hp. cbv zeta.
  destruct (initialiseTimers_perf o w Hp) as (objs & -> & Hlen & _).
  cbv zeta. cbn [fst snd]. simpl plugins.
  destruct (setTimeHelpers_frame (set_timers ∅ w)) as (Ht & _ & _ & _ & Hh & _).
  simpl in Ht, Hh.
  assert (Htimers : forall w2, timers w2 = ∅ ->
            timers (if trace o
                    then set_slots TimeStartTraceImpl TimeEndTraceImpl
                           (setTimeHelpers (set_spans ∅ w2))
                    else w2) = ∅).
  { intros w2 H2. destruct (trace o); [|exact H2]. simpl.
    destruct (setTimeHelpers_frame (set_spans ∅ w2)) as (-> & _). exact H2. }
  assert (Hheap : forall w2,
            heap (if trace o
                  then set_slots TimeStartTraceImpl TimeEndTraceImpl
                         (setTimeHelpers (set_spans ∅ w2))
                  else w2) = heap w2).
  { intros w2. destruct (trace o); [|reflexivity]. simpl.
    now destruct (setTimeHelpers_frame (set_spans ∅ w2)) as (_ & _ & _ & _ & -> & _). }
  split; [unfold getTimings; rewrite Htimers by exact Ht; apply fmap_empty|].
  split; [apply length_seq|].
  split.
  - intros k p Hk. apply lookup_seq in Hk as [-> _]. reflexivity.
  - split; [|split; reflexivity].
    intros l obj Hl. rewrite Hheap. simpl. now apply lookup_app_l_Some.
Qed.

Lemma initialiseTimers_perf_resets_witness :
  perf perf_options = true
  /\ getTimings (snd (initialiseTimers perf_options timed_before)) = ∅
  /\ heap (snd (initialiseTimers perf_options timed_before)) !! 0 = Some plugin_p.
Proof.
  destruct (initialiseTimers_perf_resets perf_options timed_before eq_refl)
    as (He & _ & _ & Hh & _).
  split; [reflexivity|]. split; [exact He|]. apply Hh. reflexivity.
Defined.

(** ** Wrappers and what they return *)

Section Transparency.

Variable native : fid -> Value -> list Value -> JS Value.


End Transparency.



(** * Properties of the registries as JavaScript objects *)

(** ** Labels and the longest string *)

Lemma Js_getPersistedLabel_bullet (limit : N) (label : string) (level : Z) :
  (3 < level)%Z ->
  Js.getPersistedLabel limit label level
  = match Js.repeat limit "  " (level - 4) with
    | Ok indent => Js.template limit (indent ++ "- " ++ label)
    | Throw e => Throw e
    end.
Proof.
  intros H. unfold Js.getPersistedLabel.
  destruct level as [|p|p]; try lia.
  destruct p as [p|p|]; try lia; destruct p as [p|p|]; try lia; reflexivity.
Qed.

Lemma Js_getPersistedLabel_below_1 (limit : N) (label : string) (level : Z) :
  (level < 1)%Z -> Js.getPersistedLabel limit label level = Throw VRangeError.
Proof.
  intros H. unfold Js.getPersistedLabel, Js.repeat.
  destruct (level - 4 <? 0)%Z eqn:E; [|apply Z.ltb_ge in E; lia].
  destruct level as [|p|p]; try reflexivity; lia.
Qed.

(** The label of the first part, when it fits; a RangeError when it does
    not.  Level 3 builds no string. *)
Lemma Js_getPersistedLabel_spec (limit : N) (label : string) (level : Z) (L : string) :
  getPersistedLabel label level = Ok L ->
  Js.getPersistedLabel limit label level
  = if (level =? 3)%Z || Js.fits limit L then Ok L else Throw VRangeError.
Proof.
  intros H. apply getPersistedLabel_cases in H.
  destruct H as [[-> ->]|[[-> ->]|[[-> ->]|[Hl ->]]]]; try reflexivity.
  rewrite Js_getPersistedLabel_bullet by assumption.
  replace (level =? 3)%Z with false by (symmetry; apply Z.eqb_neq; lia).
  cbn [orb]. unfold Js.repeat.
  destruct (level - 4 <? 0)%Z eqn:E; [apply Z.ltb_lt in E; lia|].
  destruct (N.leb_spec (N.of_nat (String.length "  ") * Z.to_N (level - 4)) limit)
    as [Hle|Hgt].
  - reflexivity.
  - unfold Js.fits.
    destruct (N.leb_spec
                (N.of_nat (String.length
                             (repeat_string "  " (Z.to_nat (level - 4)) ++ "- " ++ label)))
                limit) as [Hle'|_]; [|reflexivity].
    exfalso. rewrite string_length_app, repeat_string_length in Hle'.
    change (String.length "  ") with 2 in *. lia.
Qed.

Lemma Js_getPersistedLabel_ok (limit : N) (label : string) (level : Z) (K : string) :
  Js.getPersistedLabel limit label level = Ok K ->
  getPersistedLabel label level = Ok K.
Proof.
  intros H. destruct (Z_lt_le_dec level 1) as [Hlt|Hge].
  - rewrite Js_getPersistedLabel_below_1 in H by assumption. discriminate.
  - destruct (getPersistedLabel_from_1 label level Hge) as [L HL].
    rewrite (Js_getPersistedLabel_spec limit _ _ _ HL) in H.
    destruct ((level =? 3)%Z || Js.fits limit L); [|discriminate].
    now rewrite HL.
Qed.

Lemma level_from_1_renders (name : string) (level : Z) :
  (1 <= level)%Z ->
  getPersistedLabel name level
  = Ok match level with
       | 1%Z => "# " ++ name
       | 2%Z => "## " ++ name
       | 3%Z => name
       | _ => repeat_string " " (Z.to_nat (2 * (level - 4))) ++ "- " ++ name
       end.
Proof.
  intros H. destruct (Z_lt_le_dec 3 level) as [H3|H3].
  - rewrite getPersistedLabel_bullet by assumption. rewrite repeat_two_spaces.
    replace (2 * Z.to_nat (level - 4)) with (Z.to_nat (2 * (level - 4))) by lia.
    destruct level as [|p|p]; try lia.
    destruct p as [p|p|]; try lia; destruct p as [p|p|]; try lia; reflexivity.
  - assert (level = 1 \/ level = 2 \/ level = 3)%Z as [ -> | [ -> | -> ] ] by lia;
      reflexivity.
Qed.

(** C2, as stated, fails at level 0: the count passed to [repeat] is [-4]. *)
Lemma getPersistedLabel_level_0_throws :
  Js.getPersistedLabel v8_max_string_length "x" 0 = Throw VRangeError
  /\ ~ (forall level : Z, (0 <= level)%Z ->
          exists s, Js.getPersistedLabel v8_max_string_length "x" level = Ok s).
Proof.
  split; [reflexivity|].
  intros H. destruct (H 0%Z) as [s Hs]; [lia|]. discriminate Hs.
Qed.

(** C2 (amended): for a level from 1 on the formatter returns the rendered
    label (["# x"], ["## x"], ["x"] for levels 1, 2, 3; [2 * (level - 4)]
    spaces, then ["- "], then the name above level 3) whenever that label is
    no longer than the longest string of the engine, and throws a RangeError
    when it is longer; level 3 returns the name as it is.  Levels 4 and 5
    give ["- x"] and ["  - x"]; an omitted level is 3; below level 1 the call
    throws a RangeError. *)
Theorem getPersistedLabel_levels (limit : N) (name : string) (level : Z) :
  (1 <= level)%Z ->
  let rendered :=
    match level with
    | 1%Z => "# " ++ name
    | 2%Z => "## " ++ name
    | 3%Z => name
    | _ => repeat_string " " (Z.to_nat (2 * (level - 4))) ++ "- " ++ name
    end in
  (level = 3%Z \/ (N.of_nat (String.length rendered) <= limit)%N ->
     Js.getPersistedLabel limit name level = Ok rendered)
  /\ (level <> 3%Z -> (limit < N.of_nat (String.length rendered))%N ->
     Js.getPersistedLabel limit name level = Throw VRangeError)
  /\ ((5 <= limit)%N ->
      Js.getPersistedLabel limit "x" 1 = Ok "# x"
      /\ Js.getPersistedLabel limit "x" 2 = Ok "## x"
      /\ Js.getPersistedLabel limit "x" 3 = Ok "x"
      /\ Js.getPersistedLabel limit "x" 4 = Ok "- x"
      /\ Js.getPersistedLabel limit "x" 5 = Ok "  - x")
  /\ level_or_default None = 3%Z
  /\ (forall l : Z, (l < 1)%Z -> Js.getPersistedLabel limit name l = Throw VRangeError).
Proof.
  intros H rendered.
  pose proof (Js_getPersistedLabel_spec limit name level rendered
                (level_from_1_renders name level H)) as Hspec.
  unfold Js.fits in Hspec.
  split; [|split; [|split; [|split]]].
  - intros [->|Hfit]; [reflexivity|].
    rewrite Hspec. apply N.leb_le in Hfit. rewrite Hfit. now rewrite orb_true_r.
  - intros Hne Hlong. rewrite Hspec.
    replace (level =? 3)%Z with false by (symmetry; now apply Z.eqb_neq).
    apply N.leb_gt in Hlong. now rewrite Hlong.
  - intros Hlim.
    assert (Hx : forall lvl L, getPersistedLabel "x" lvl = Ok L ->
                   String.length L <= 5 ->
                   Js.getPersistedLabel limit "x" lvl = Ok L).
    { intros lvl L HL Hlen. rewrite (Js_getPersistedLabel_spec limit _ _ _ HL).
      unfold Js.fits. replace (N.of_nat (String.length L) <=? limit)%N with true
        by (symmetry; apply N.leb_le; lia).
      now rewrite orb_true_r. }
    repeat split; apply Hx; try reflexivity; simpl; lia.
  - reflexivity.
  - intros l Hl. now apply Js_getPersistedLabel_below_1.
Qed.

Lemma getPersistedLabel_levels_witness :
  (1 <= 268435447)%Z
  /\ Js.getPersistedLabel v8_max_string_length "x" 268435447 = Throw VRangeError
  /\ (exists s, Js.getPersistedLabel v8_max_string_length "x" 268435446 = Ok s)
  /\ Js.getPersistedLabel v8_max_string_length "load" 7 = Ok "      - load"
  /\ Js.getPersistedLabel v8_max_string_length "x" 1 = Ok "# x"
  /\ Js.getPersistedLabel v8_max_string_length "x" 2 = Ok "## x"
  /\ Js.getPersistedLabel v8_max_string_length "x" 3 = Ok "x"
  /\ Js.getPersistedLabel v8_max_string_length "x" 4 = Ok "- x"
  /\ Js.getPersistedLabel v8_max_string_length "x" 5 = Ok "  - x"
  /\ level_or_default None = 3%Z
  /\ Js.getPersistedLabel v8_max_string_length "x" 0 = Throw VRangeError.
Proof.
  split; [lia|].
  destruct (getPersistedLabel_levels v8_max_string_length "x" 268435447 ltac:(lia))
    as (_ & Hthrow & Hfive & Hdefault & Hbelow).
  destruct (getPersistedLabel_levels v8_max_string_length "x" 268435446 ltac:(lia))
    as (Hok & _).
  destruct (getPersistedLabel_levels v8_max_string_length "load" 7 ltac:(lia))
    as (Hload & _).
  cbv beta iota zeta in Hthrow, Hok, Hload.
  assert (Hlim : (5 <= v8_max_string_length)%N) by (unfold v8_max_string_length; lia).
  destruct (Hfive Hlim) as (F1 & F2 & F3 & F4 & F5).
  split; [|split; [|split]].
  - apply Hthrow; [lia|].
    rewrite string_length_app, repeat_string_length.
    change (String.length " ") with 1. change (String.length ("- " ++ "x")) with 3.
    unfold v8_max_string_length. lia.
  - eexists. apply Hok. right.
    rewrite string_length_app, repeat_string_length.
    change (String.length " ") with 1. change (String.length ("- " ++ "x")) with 3.
    unfold v8_max_string_length. lia.
  - rewrite Hload; [reflexivity|]. right. vm_compute. discriminate.
  - split; [exact F1|]. split; [exact F2|]. split; [exact F3|]. split; [exact F4|].
    split; [exact F5|]. split; [exact Hdefault|]. apply Hbelow. lia.
Defined.

(** ** The timer registry as an object *)

Lemma Js_own_lookup {V : Type} (o : gmap string V) (key : string) :
  key <> "__proto__" -> Js.own o key = o !! key.
Proof.
  intros H. unfold Js.own.
  destruct (String.eqb key "__proto__") eqn:E; [apply String.eqb_eq in E; contradiction|].
  reflexivity.
Qed.

Lemma Js_assign_insert {V : Type} (o : gmap string V) (key : string) (v : V) :
  key <> "__proto__" -> Js.assign o key v = <[key := v]> o.
Proof.
  intros H. unfold Js.assign.
  destruct (String.eqb key "__proto__") eqn:E; [apply String.eqb_eq in E; contradiction|].
  reflexivity.
Qed.

Lemma Js_hasOwnProperty_intact {V : Type} (o : gmap string V) (key : string) :
  intact o ->
  Js.hasOwnProperty o key
  = Ok (match Js.own o key with Some _ => true | None => false end).
Proof. intros H. unfold Js.hasOwnProperty. now rewrite H. Qed.

Lemma Js_hasOwnProperty_shadowed {V : Type} (o : gmap string V) (key : string) (v : V) :
  o !! "hasOwnProperty" = Some v -> Js.hasOwnProperty o key = Throw VTypeError.
Proof. intros H. unfold Js.hasOwnProperty. now rewrite H. Qed.

(** On an intact registry and a key other than ["__proto__"] the two
    functions are those of the first part. *)
Lemma Js_timeStartImpl_agrees (limit : N) (label : string) (level : option Z)
    (K : string) (w : World) :
  Js.getPersistedLabel limit label (level_or_default level) = Ok K ->
  intact (timers w) ->
  K <> "__proto__" ->
  Js.timeStartImpl limit label level w = timeStartImpl label level w.
Proof.
  intros HK Hi Hp. pose proof (Js_getPersistedLabel_ok _ _ _ _ HK) as HK'.
  unfold Js.timeStartImpl, timeStartImpl, bind, lift. rewrite HK, HK'.
  rewrite (Js_hasOwnProperty_intact _ _ Hi), (Js_own_lookup _ _ Hp),
    (Js_assign_insert _ _ _ Hp).
  reflexivity.
Qed.

Lemma Js_timeEndImpl_agrees (limit : N) (label : string) (level : option Z)
    (K : string) (w : World) :
  Js.getPersistedLabel limit label (level_or_default level) = Ok K ->
  intact (timers w) ->
  K <> "__proto__" ->
  Js.timeEndImpl limit label level w = timeEndImpl label level w.
Proof.
  intros HK Hi Hp. pose proof (Js_getPersistedLabel_ok _ _ _ _ HK) as HK'.
  unfold Js.timeEndImpl, timeEndImpl, bind, lift. rewrite HK, HK'.
  rewrite (Js_hasOwnProperty_intact _ _ Hi), (Js_own_lookup _ _ Hp).
  destruct (timers w !! K); [|reflexivity].
  now rewrite (Js_assign_insert _ _ _ Hp).
Qed.

Lemma Js_run_cycle_agrees (limit : N) (label : string) (level : option Z)
    (K : string) (c : Cycle) (w : World) :
  Timing w ->
  Js.getPersistedLabel limit label (level_or_default level) = Ok K ->
  K <> "hasOwnProperty" -> K <> "__proto__" ->
  intact (timers w) ->
  Js.run_cycle limit label level c w = run_cycle label level c w
  /\ intact (timers (snd (run_cycle label level c w))).
Proof.
  intros [Hs He] HK Hh Hp Hi.
  pose proof (Js_getPersistedLabel_ok _ _ _ _ HK) as HK'.
  unfold Js.run_cycle, run_cycle, bind, modify, Js.call_timeStart, Js.call_timeEnd,
    call_timeStart, call_timeEnd. simpl. rewrite Hs.
  rewrite (Js_timeStartImpl_agrees limit _ _ K) by assumption.
  rewrite (timeStartImpl_eq _ _ K) by assumption. simpl. rewrite He.
  assert (Hi1 : forall (T : gmap string Timer) t, intact T -> intact (<[K := t]> T)).
  { intros T t HT. unfold intact. rewrite lookup_insert_ne by assumption. exact HT. }
  rewrite (Js_timeEndImpl_agrees limit _ _ K); [|assumption|simpl; now apply Hi1|assumption].
  split; [reflexivity|].
  erewrite (timeEndImpl_known _ _ K); [|assumption|simpl; apply lookup_insert_eq].
  simpl. apply Hi1. now apply Hi1.
Qed.

Lemma Js_run_cycles_agrees (limit : N) (label : string) (level : option Z)
    (K : string) (cs : list Cycle) :
  Js.getPersistedLabel limit label (level_or_default level) = Ok K ->
  K <> "hasOwnProperty" -> K <> "__proto__" ->
  forall w, Timing w -> intact (timers w) ->
  Js.run_cycles limit label level cs w = run_cycles label level cs w.
Proof.
  intros HK Hh Hp. pose proof (Js_getPersistedLabel_ok _ _ _ _ HK) as HK'.
  induction cs as [|c cs IH]; intros w Hw Hi; [reflexivity|].
  destruct (Js_run_cycle_agrees limit label level K c w Hw HK Hh Hp Hi) as [Hc Hi1].
  destruct (run_cycle_spec label level K c w Hw HK') as (w1 & t & Hrun & Hw1 & _).
  simpl. unfold bind. rewrite Hc, Hrun. rewrite Hrun in Hi1. now apply IH.
Qed.





(** ** The span registry as an object *)

Lemma Js_own_empty {V : Type} (key : string) : Js.own (∅ : gmap string V) key = None.
Proof. unfold Js.own. destruct (String.eqb key "__proto__"); [reflexivity | apply lookup_empty]. Qed.

Lemma Js_own_Some {V : Type} (o : gmap string V) (key : string) (v : V) :
  Js.own o key = Some v -> key <> "__proto__" /\ o !! key = Some v.
Proof.
  unfold Js.own. destruct (String.eqb key "__proto__") eqn:E; [discriminate|].
  apply String.eqb_neq in E. auto.
Qed.

Lemma Js_own_intact {V : Type} (o : gmap string V) (key : string) (v : V) :
  intact o -> Js.own o key = Some v ->
  key <> "hasOwnProperty" /\ key <> "__proto__" /\ o !! key = Some v.
Proof.
  intros Hi Ho. apply Js_own_Some in Ho as [Hp Hl].
  split; [|split; assumption]. intros ->. unfold intact in Hi. congruence.
Qed.

Lemma intact_insert {V : Type} (o : gmap string V) (key : string) (v : V) :
  key <> "hasOwnProperty" -> intact o -> intact (<[key := v]> o).
Proof. intros Hk Hi. unfold intact. rewrite lookup_insert_ne by assumption. exact Hi. Qed.

Lemma Js_timeStartTraceImpl_known
    (label : string) (level : option Z) (s : SpanRef) (w : World) :
  intact (spans w) -> Js.own (spans w) label = Some s ->
  Js.timeStartTraceImpl label level w = (Ok tt, w).
Proof.
  intros Hi Ho. unfold Js.timeStartTraceImpl.
  rewrite (Js_hasOwnProperty_intact _ _ Hi), Ho. reflexivity.
Qed.

Lemma Js_timeStartTraceImpl_shadowed
    (label : string) (level : option Z) (s : SpanRef) (w : World) :
  spans w !! "hasOwnProperty" = Some s ->
  Js.timeStartTraceImpl label level w = (Throw VTypeError, w).
Proof.
  intros Hs. unfold Js.timeStartTraceImpl.
  rewrite (Js_hasOwnProperty_shadowed _ _ _ Hs). reflexivity.
Qed.

Lemma Js_timeStartTraceImpl_new (label : string) (level : option Z) (w : World) :
  intact (spans w) -> Js.own (spans w) label = None ->
  Js.timeStartTraceImpl label level w
  = (Ok tt,
     set_tracer
       (tracer w ++ [StartSpan label (length (tracer w));
                     SetAttributes (length (tracer w))
                       [("memory", ANumber 0); ("startMemory", AUndefined);
                        ("endMemory", AUndefined); ("totalMemory", ANumber 0)];
                     SetAttribute (length (tracer w)) "startMemory"
                       (ANumber (call_getMemory w))])
       (set_spans (Js.assign (spans w) label (length (tracer w))) w)).
Proof.
  intros Hi Ho. unfold Js.timeStartTraceImpl.
  rewrite (Js_hasOwnProperty_intact _ _ Hi), Ho. unfold log.
  cbn [tracer spans set_tracer set_spans]. rewrite <- !app_assoc. reflexivity.
Qed.

Lemma Js_timeStartTraceImpl_effect (label : string) (level : option Z) (w : World) :
  exists new sp,
    snd (Js.timeStartTraceImpl label level w) = set_tracer (tracer w ++ new) (set_spans sp w)
    /\ forallb (fun c => negb (is_EndSpan c)) new = true
    /\ (forall L s, spans w !! L = Some s -> sp !! L = Some s)
    /\ sp !! "__proto__" = spans w !! "__proto__"
    /\ (forall L s, sp !! L = Some s -> spans w !! L = Some s \/ L = label)
    /\ (intact (spans w) -> fst (Js.timeStartTraceImpl label level w) = Ok tt)
    /\ (label <> "hasOwnProperty" -> intact (spans w) -> intact sp).
Proof.
  assert (Hid : set_tracer (tracer w ++ []) (set_spans (spans w) w) = w)
    by (rewrite app_nil_r; now destruct w).
  destruct (spans w !! "hasOwnProperty") as [v|] eqn:Hh.
  - rewrite (Js_timeStartTraceImpl_shadowed _ _ _ _ Hh). exists [], (spans w).
    split; [now rewrite Hid|]. split; [reflexivity|]. split; [trivial|].
    split; [reflexivity|]. split; [auto|].
    split; [intros Hi; unfold intact in Hi; congruence | trivial].
  - destruct (Js.own (spans w) label) as [s|] eqn:Ho.
    + rewrite (Js_timeStartTraceImpl_known _ _ _ _ Hh Ho). exists [], (spans w).
      split; [now rewrite Hid|]. split; [reflexivity|]. split; [trivial|].
      split; [reflexivity|]. split; [auto|]. split; [reflexivity | trivial].
    + rewrite (Js_timeStartTraceImpl_new _ _ _ Hh Ho). eexists _, _.
      split; [reflexivity|]. split; [reflexivity|].
      unfold Js.own in Ho. unfold Js.assign.
      destruct (String.eqb label "__proto__") eqn:E.
      * split; [trivial|]. split; [reflexivity|]. split; [auto|].
        split; [reflexivity | trivial].
      * apply String.eqb_neq in E.
        split. { intros L s HL. rewrite lookup_insert_ne; [exact HL | congruence]. }
        split. { now rewrite lookup_insert_ne. }
        split. { intros L s HL. destruct (decide (label = L)) as [<-|Hne]; [now right|].
                 rewrite lookup_insert_ne in HL by assumption. now left. }
        split; [reflexivity|]. intros Hl Hi. now apply intact_insert.
Qed.

Lemma Js_timeEndTraceImpl_effect (label : string) (level : option Z) (w : World) :
  exists new,
    snd (Js.timeEndTraceImpl label level w) = set_tracer (tracer w ++ new) w
    /\ (timers w = ∅ -> new = [] /\ fst (Js.timeEndTraceImpl label level w) = Ok tt).
Proof.
  assert (Hid : set_tracer (tracer w ++ []) w = w) by (rewrite app_nil_r; now destruct w).
  unfold Js.timeEndTraceImpl, Js.hasOwnProperty.
  destruct (timers w !! "hasOwnProperty") as [v|] eqn:Hh; cbn beta iota.
  - exists []. split; [now rewrite Hid|]. intros He. rewrite He, lookup_empty in Hh.
    discriminate.
  - destruct (Js.own (timers w) label) as [t|] eqn:Ho.
    + assert (Hne : timers w <> ∅).
      { intros He. rewrite He, Js_own_empty in Ho. discriminate. }
      destruct (Js.own (spans w) label) as [s|].
      * eexists [_; _; _]. split; [|intros He; contradiction].
        unfold log. cbn [snd tracer set_tracer]. rewrite <- !app_assoc. reflexivity.
      * exists []. split; [now rewrite Hid | intros He; contradiction].
    + exists []. split; [now rewrite Hid|]. intros _. split; reflexivity.
Qed.

Lemma Js_run_event_tracing_effect (limit : N) (ev : Event) (w : World) :
  Tracing w ->
  exists new sp e,
    snd (Js.run_event limit ev w)
    = set_env e (set_tracer (tracer w ++ new) (set_spans sp w))
    /\ (timers w = ∅ -> forallb (fun c => negb (is_EndSpan c)) new = true)
    /\ (timers w = ∅ -> intact (spans w) -> fst (Js.run_event limit ev w) = Ok tt)
    /\ (forall L s, spans w !! L = Some s -> sp !! L = Some s)
    /\ sp !! "__proto__" = spans w !! "__proto__"
    /\ (forall L s, sp !! L = Some s ->
          spans w !! L = Some s \/ exists level, ev = Call (CallStart L level))
    /\ (starts_hasOwnProperty ev = false -> intact (spans w) -> intact sp).
Proof.
  intros [Hs He]. destruct ev as [e|[label level|label level]]; simpl.
  - exists [], (spans w), e. rewrite app_nil_r.
    split; [now destruct w|]. split; [reflexivity|]. split; [reflexivity|].
    split; [trivial|]. split; [reflexivity|]. split; [auto | trivial].
  - unfold Js.call_timeStart. rewrite Hs.
    destruct (Js_timeStartTraceImpl_effect label level w)
      as (new & sp & Hsnd & Hnew & Hold & Hproto & Hsp & Hok & Hint).
    exists new, sp, (env w). rewrite Hsnd.
    split; [now destruct w|]. split; [trivial|]. split; [intros _; exact Hok|].
    split; [exact Hold|]. split; [exact Hproto|]. split.
    + intros L s HL. destruct (Hsp L s HL) as [H| ->]; [now left | right; eauto].
    + intros Hl. apply Hint. now apply String.eqb_neq.
  - unfold Js.call_timeEnd. rewrite He.
    destruct (Js_timeEndTraceImpl_effect label level w) as (new & Hsnd & Hnil).
    exists new, (spans w), (env w). rewrite Hsnd.
    split; [now destruct w|].
    split; [intros Hem; destruct (Hnil Hem) as [-> _]; reflexivity|].
    split; [intros Hem _; exact (proj2 (Hnil Hem))|].
    split; [trivial|]. split; [reflexivity|]. split; [auto | trivial].
Qed.




(** ** Initialisation with both flags unset *)

(** C4 (amended): an initialisation with both flags unset rebinds the two
    slots to the no-op and does nothing else: the options object, its plugin
    list, the objects on the heap, the tracer and both registries are as
    before.  Any number of calls through the slots then leaves the whole
    world, and with it the snapshot, as it was.  The timer registry is not
    reset: the snapshot is the one from before the call, and it is empty when
    the registry was empty before, as in a fresh process. *)
Theorem initialiseTimers_disabled_noop (o : InputOptions) (w : World) :
  perf o = false -> trace o = false ->
  let r := initialiseTimers o w in
  fst r = o
  /\ snd r = set_slots NOOP_start NOOP_end w
  /\ heap (snd r) = heap w
  /\ timers (snd r) = timers w
  /\ spans (snd r) = spans w
  /\ tracer (snd r) = tracer w
  /\ Disabled (snd r)
  /\ (forall calls, run_calls calls (snd r) = (Ok tt, snd r))
  /\ (forall limit label level,
        Js.call_timeStart limit label level (snd r) = (Ok tt, snd r)
        /\ Js.call_timeEnd limit label level (snd r) = (Ok tt, snd r))
  /\ getTimings (snd r) = getTimings w
  /\ (timers w = ∅ ->
      forall calls, getTimings (snd (run_calls calls (snd r))) = ∅).
Proof.
  intros Hp Ht. cbv zeta. rewrite initialiseTimers_disabled by assumption.
  cbn [fst snd].
  assert (Hd : Disabled (set_slots NOOP_start NOOP_end w)) by (split; reflexivity).
  repeat split.
  - intros calls. now apply run_calls_disabled.
  - intros Hempty calls. rewrite run_calls_disabled by assumption.
    unfold getTimings. simpl. rewrite Hempty. apply fmap_empty.
Qed.

Lemma initialiseTimers_disabled_noop_witness :
  perf disabled_options = false
  /\ trace disabled_options = false
  /\ fst (initialiseTimers disabled_options loaded) = disabled_options
  /\ getTimings
       (snd (run_calls [CallStart "build" None; CallEnd "build" None]
               (snd (initialiseTimers disabled_options loaded)))) = ∅
  /\ timers (snd (initialiseTimers disabled_options timed_before)) = timers timed_before
  /\ spans (snd (initialiseTimers disabled_options timed_before)) = spans timed_before
  /\ tracer (snd (initialiseTimers disabled_options timed_before)) = tracer timed_before
  /\ heap (snd (initialiseTimers disabled_options timed_before)) = heap timed_before
  /\ Disabled (snd (initialiseTimers disabled_options timed_before))
  /\ run_calls [CallStart "build" None; CallEnd "build" None]
       (snd (initialiseTimers disabled_options timed_before))
     = (Ok tt, snd (initialiseTimers disabled_options timed_before))
  /\ Js.call_timeStart v8_max_string_length "hasOwnProperty" None
       (snd (initialiseTimers disabled_options timed_before))
     = (Ok tt, snd (initialiseTimers disabled_options timed_before))
  /\ getTimings (snd (initialiseTimers disabled_options timed_before))
     = getTimings timed_before.
Proof.
  destruct (initialiseTimers_disabled_noop disabled_options loaded eq_refl eq_refl)
    as (Hopts & _ & _ & _ & _ & _ & _ & _ & _ & _ & Hempty).
  destruct (initialiseTimers_disabled_noop disabled_options timed_before eq_refl eq_refl)
    as (_ & _ & Hheap & Htm & Hsp & Htr & Hd & Hcalls & Hjs & Hsnap & _).
  split; [reflexivity|]. split; [reflexivity|]. split; [exact Hopts|].
  split; [apply Hempty; reflexivity|].
  split; [exact Htm|]. split; [exact Hsp|]. split; [exact Htr|]. split; [exact Hheap|].
  split; [exact Hd|]. split; [apply Hcalls|].
  split; [exact (proj1 (Hjs v8_max_string_length "hasOwnProperty" None))|].
  exact Hsnap.
Defined.

(** ** Helper selection *)

(** X1: [setTimeHelpers] takes [process.hrtime] when the host has it, else
    [performance.now] when the host has that, else leaves the clock helpers
    bound as they were; it binds the heap reading when the host has
    [process.memoryUsage] and leaves that helper as it was otherwise.  It
    changes nothing but the three helpers: the registries, the slots, the
    tracer, the heap, the host, the promises and the job queue are as before.
    Running it twice is running it once. *)
Theorem setTimeHelpers_selection (w : World) :
  (has_hrtime (env w) = true ->
     getStartTime (setTimeHelpers w) = HrTime
     /\ getElapsedTime (setTimeHelpers w) = HrTime)
  /\ (has_hrtime (env w) = false -> has_performance_now (env w) = true ->
     getStartTime (setTimeHelpers w) = PerfNow
     /\ getElapsedTime (setTimeHelpers w) = PerfNow)
  /\ (has_hrtime (env w) = false -> has_performance_now (env w) = false ->
     getStartTime (setTimeHelpers w) = getStartTime w
     /\ getElapsedTime (setTimeHelpers w) = getElapsedTime w)
  /\ (has_memoryUsage (env w) = true -> getMemory (setTimeHelpers w) = HeapUsed)
  /\ (has_memoryUsage (env w) = false -> getMemory (setTimeHelpers w) = getMemory w)
  /\ setTimeHelpers w
     = set_getMemory (getMemory (setTimeHelpers w))
         (set_time_helpers (getStartTime (setTimeHelpers w))
            (getElapsedTime (setTimeHelpers w)) w)
  /\ timers (setTimeHelpers w) = timers w
  /\ spans (setTimeHelpers w) = spans w
  /\ timeStart (setTimeHelpers w) = timeStart w
  /\ timeEnd (setTimeHelpers w) = timeEnd w
  /\ tracer (setTimeHelpers w) = tracer w
  /\ heap (setTimeHelpers w) = heap w
  /\ env (setTimeHelpers w) = env w
  /\ promises (setTimeHelpers w) = promises w
  /\ microtasks (setTimeHelpers w) = microtasks w
  /\ setTimeHelpers (setTimeHelpers w) = setTimeHelpers w.
Proof.
  unfold setTimeHelpers.
  destruct (has_hrtime (env w)) eqn:H1; [|destruct (has_performance_now (env w)) eqn:H2];
    simpl; destruct (has_memoryUsage (env w)) eqn:H3; simpl;
    rewrite ?H1, ?H2, ?H3; simpl; rewrite ?H3;
    repeat split; intros; try reflexivity; try discriminate; now destruct w.
Qed.

Lemma setTimeHelpers_selection_witness :
  has_hrtime (env loaded) = false
  /\ has_performance_now (env loaded) = true
  /\ has_memoryUsage (env loaded) = true
  /\ getStartTime (setTimeHelpers loaded) = PerfNow
  /\ getElapsedTime (setTimeHelpers loaded) = PerfNow
  /\ getMemory (setTimeHelpers loaded) = HeapUsed
  /\ has_hrtime (node_host 1 0 5) = true
  /\ getStartTime (setTimeHelpers (initial (node_host 1 0 5) [])) = HrTime
  /\ getElapsedTime (setTimeHelpers (initial (node_host 1 0 5) [])) = HrTime
  /\ has_hrtime bare_host = false /\ has_performance_now bare_host = false
  /\ has_memoryUsage bare_host = false
  /\ getStartTime (setTimeHelpers (initial bare_host [])) = StubTime
  /\ getElapsedTime (setTimeHelpers (initial bare_host [])) = StubTime
  /\ getMemory (setTimeHelpers (initial bare_host [])) = StubMemory
  /\ timers (setTimeHelpers timed_before) = timers timed_before
  /\ spans (setTimeHelpers timed_before) = spans timed_before
  /\ timeStart (setTimeHelpers timed_before) = TimeStartImpl
  /\ timeEnd (setTimeHelpers timed_before) = TimeEndImpl
  /\ tracer (setTimeHelpers timed_before) = tracer timed_before
  /\ heap (setTimeHelpers timed_before) = heap timed_before
  /\ env (setTimeHelpers timed_before) = env timed_before
  /\ promises (setTimeHelpers timed_before) = promises timed_before
  /\ microtasks (setTimeHelpers timed_before) = microtasks timed_before
  /\ setTimeHelpers (setTimeHelpers timed_before) = setTimeHelpers timed_before.
Proof.
  destruct (setTimeHelpers_selection loaded) as (_ & Hperf & _ & Hmem & _).
  destruct (setTimeHelpers_selection (initial (node_host 1 0 5) [])) as (Hhr & _).
  destruct (setTimeHelpers_selection (initial bare_host []))
    as (_ & _ & Hnone & _ & Hnomem & _).
  destruct (setTimeHelpers_selection timed_before)
    as (_ & _ & _ & _ & _ & _ & A & B & C & D & E & F & G & H & I & J).
  split; [reflexivity|]. split; [reflexivity|]. split; [reflexivity|].
  split; [exact (proj1 (Hperf eq_refl eq_refl))|].
  split; [exact (proj2 (Hperf eq_refl eq_refl))|]. split; [exact (Hmem eq_refl)|].
  split; [reflexivity|].
  split; [exact (proj1 (Hhr eq_refl))|]. split; [exact (proj2 (Hhr eq_refl))|].
  split; [reflexivity|]. split; [reflexivity|]. split; [reflexivity|].
  split; [exact (proj1 (Hnone eq_refl eq_refl))|].
  split; [exact (proj2 (Hnone eq_refl eq_refl))|].
  split; [exact (Hnomem eq_refl)|].
  split; [exact A|]. split; [exact B|]. split; [rewrite C; reflexivity|].
  split; [rewrite D; reflexivity|]. split; [exact E|]. split; [exact F|].
  split; [exact G|]. split; [exact H|]. split; [exact I | exact J].
Defined.

(** ** Measuring without a clock *)

(** X2: on a host without any clock and without [process.memoryUsage], a
    Timing activation of the freshly loaded module measures nothing: for a
    label whose key is neither ["hasOwnProperty"] nor ["__proto__"], any
    number of complete cycles returns normally and leaves a record with time
    0, memory 0 and peak 0, whatever the host does in between. *)
Theorem stub_helpers_measure_zero
    (limit : N) (e : Env) (h : list PluginObj) (o : InputOptions)
    (label : string) (level : option Z) (L : string) (cs : list Cycle) :
  has_hrtime e = false ->
  has_performance_now e = false ->
  has_memoryUsage e = false ->
  perf o = true -> trace o = false ->
  Js.getPersistedLabel limit label (level_or_default level) = Ok L ->
  L <> "hasOwnProperty" -> L <> "__proto__" ->
  cs <> [] ->
  exists w' t,
    Js.run_cycles limit label level cs (snd (initialiseTimers o (initial e h))) = (Ok tt, w')
    /\ Js.own (timers w') L = Some t
    /\ time t = 0%float /\ memory t = 0%Z /\ totalMemory t = 0%N
    /\ getTimings w' !! L = Some (0%float, 0%Z, 0%N).
Proof.
  intros H1 H2 H3 Hp Ht HL Hh Hpr Hne.
  pose proof (Js_getPersistedLabel_ok _ _ _ _ HL) as HL'.
  destruct (initialiseTimers_perf o (initial e h) Hp) as (objs & Hinit & _ & _).
  rewrite Hinit, Ht. cbv zeta. cbn [snd].
  set (w := set_heap _ _).
  assert (Hw : Timing w) by (split; reflexivity).
  assert (Hstub : getStartTime w = StubTime /\ getElapsedTime w = StubTime
                  /\ getMemory w = StubMemory).
  { subst w. unfold setTimeHelpers. simpl. rewrite H1, H2. simpl. rewrite H3.
    repeat split. }
  destruct Hstub as (Hs1 & Hs2 & Hs3).
  assert (Hempty : timers w = ∅).
  { subst w. simpl.
    now destruct (setTimeHelpers_frame (set_timers ∅ (initial e h))) as (-> & _). }
  assert (Hfresh : timers w !! L = None) by (rewrite Hempty; apply lookup_empty).
  assert (Hi : intact (timers w)) by (unfold intact; rewrite Hempty; apply lookup_empty).
  clearbody w.
  rewrite (Js_run_cycles_agrees limit label level L cs HL Hh Hpr w Hw Hi).
  destruct (timing_cycles_accumulate_aux label level L cs w Hw HL' Hfresh Hne)
    as (w' & t & Hrun & Hrec & Htime & Hmem & Htot).
  exists w', t. split; [exact Hrun|].
  split; [now rewrite (Js_own_lookup _ _ Hpr)|].
  assert (Hel : Forall (fun x => x = 0%float) (map (elapsed w) cs)).
  { apply Forall_forall. intros x Hx. apply list_elem_of_fmap in Hx as (c & -> & _).
    unfold elapsed, call_getElapsedTime. simpl. now rewrite Hs2. }
  assert (Hmd : Forall (fun x => x = 0%Z) (map (memory_delta w) cs)).
  { apply Forall_forall. intros x Hx. apply list_elem_of_fmap in Hx as (c & -> & _).
    unfold memory_delta, end_memory, start_memory, call_getMemory. simpl.
    now rewrite Hs3. }
  assert (Htot0 : totalMemory t = 0%N).
  { rewrite Htot. clear -Hs3. induction cs as [|c cs IH]; [reflexivity|].
    simpl. unfold end_memory at 2, call_getMemory. simpl. rewrite Hs3. exact IH. }
  assert (Htime0 : time t = 0%float) by (rewrite Htime; now apply fold_left_add_zeros).
  assert (Hmem0 : memory t = 0%Z) by (rewrite Hmem; now apply fold_left_Zadd_zeros).
  split; [exact Htime0|]. split; [exact Hmem0|]. split; [exact Htot0|].
  unfold getTimings. rewrite lookup_fmap, Hrec. simpl.
  now rewrite Htime0, Hmem0, Htot0.
Qed.

Lemma stub_helpers_measure_zero_witness :
  has_hrtime bare_host = false
  /\ has_performance_now bare_host = false
  /\ has_memoryUsage bare_host = false
  /\ perf perf_options = true /\ trace perf_options = false
  /\ Js.getPersistedLabel v8_max_string_length "build" (level_or_default None) = Ok "build"
  /\ "build" <> "hasOwnProperty" /\ "build" <> "__proto__"
  /\ two_cycles <> []
  /\ exists w' t,
       Js.run_cycles v8_max_string_length "build" None two_cycles
         (snd (initialiseTimers perf_options (initial bare_host [plugin_p]))) = (Ok tt, w')
       /\ Js.own (timers w') "build" = Some t
       /\ time t = 0%float /\ memory t = 0%Z /\ totalMemory t = 0%N
       /\ getTimings w' !! "build" = Some (0%float, 0%Z, 0%N).
Proof.
  assert (Hne : two_cycles <> []) by discriminate.
  assert (Ha : "build" <> "hasOwnProperty") by discriminate.
  assert (Hb : "build" <> "__proto__") by discriminate.
  repeat (split; [first [reflexivity | exact Hne | exact Ha | exact Hb]|]).
  exact (stub_helpers_measure_zero v8_max_string_length bare_host [plugin_p] perf_options
           "build" None "build" two_cycles
           eq_refl eq_refl eq_refl eq_refl eq_refl eq_refl Ha Hb Hne).
Defined.

(** ** Intervals *)

(** X7: [timeEndImpl] does not close the interval: it leaves the start time
    and start memory of the record in place, so a second [timeEnd] without a
    new [timeStart] adds the time since that same start once more, and the
    memory difference to that same start once more.  This is for a record
    that is an own property of a registry without an entry under
    ["hasOwnProperty"], on a host that keeps what the bound helpers use. *)
Theorem timeEnd_twice_counts_from_same_start
    (limit : N) (label : string) (level : option Z) (L : string) (t : Timer)
    (e2 : Env) (w : World) :
  Js.getPersistedLabel limit label (level_or_default level) = Ok L ->
  intact (timers w) ->
  Js.own (timers w) L = Some t ->
  supports w (env w) -> supports w e2 ->
  let r1 := Js.timeEndImpl limit label level w in
  let r2 := Js.timeEndImpl limit label level (set_env e2 (snd r1)) in
  fst r1 = Ok tt /\ fst r2 = Ok tt
  /\ exists t1 t2,
    Js.own (timers (snd r1)) L = Some t1
    /\ startTime t1 = startTime t /\ startMemory t1 = startMemory t
    /\ Js.own (timers (snd r2)) L = Some t2
    /\ startTime t2 = startTime t /\ startMemory t2 = startMemory t
    /\ time t2 = (time t + call_getElapsedTime w (startTime t)
                  + call_getElapsedTime (set_env e2 w) (startTime t))%float
    /\ memory t2 = (memory t
                    + (Z.of_N (call_getMemory w) - Z.of_N (startMemory t))
                    + (Z.of_N (call_getMemory (set_env e2 w)) - Z.of_N (startMemory t)))%Z
    /\ totalMemory t2
       = N.max (N.max (totalMemory t) (call_getMemory w)) (call_getMemory (set_env e2 w)).
Proof.
  intros HL Hi Ho _ _. cbv zeta.
  pose proof (Js_getPersistedLabel_ok _ _ _ _ HL) as HL'.
  destruct (Js_own_intact _ _ _ Hi Ho) as (Hh & Hp & Ht).
  rewrite (Js_timeEndImpl_agrees limit _ _ L) by assumption.
  rewrite (timeEndImpl_known _ _ _ _ _ HL' Ht). cbn [fst snd].
  rewrite (Js_timeEndImpl_agrees limit _ _ L);
    [|assumption | cbn [timers set_env set_timers]; now apply intact_insert | assumption].
  erewrite (timeEndImpl_known _ _ L); [|exact HL'|simpl; apply lookup_insert_eq].
  cbn [fst snd]. split; [reflexivity|]. split; [reflexivity|].
  do 2 eexists. cbn [timers set_env set_timers]. rewrite !(Js_own_lookup _ _ Hp).
  split; [apply lookup_insert_eq|]. split; [reflexivity|]. split; [reflexivity|].
  split; [apply lookup_insert_eq|]. repeat split.
Qed.

Lemma timeEnd_twice_counts_from_same_start_witness :
  Js.getPersistedLabel v8_max_string_length "build" (level_or_default None) = Ok "build"
  /\ intact (timers timed_before)
  /\ time <$> Js.own (timers timed_before) "build" = Some 3.5%float
  /\ supports timed_before (env timed_before)
  /\ supports timed_before (host 12 110)
  /\ fst (Js.timeEndImpl v8_max_string_length "build" None timed_before) = Ok tt
  /\ (fun t => (time t, memory t, totalMemory t, startTime t, startMemory t))
       <$> Js.own (timers (snd (Js.timeEndImpl v8_max_string_length "build" None
                             (set_env (host 12 110)
                                (snd (Js.timeEndImpl v8_max_string_length "build" None
                                        timed_before))))))
             "build"
     = Some (6.5%float, 20%Z, 150%N, (10, 0)%float, 120%N).
Proof.
  assert (Hi : intact (timers timed_before)) by (vm_compute; reflexivity).
  assert (Ht : Js.own (timers timed_before) "build"
               = Some {| memory := 40; startMemory := 120; startTime := (10, 0)%float;
                         time := 3.5; totalMemory := 150 |})
    by (vm_compute; reflexivity).
  assert (Hs1 : supports timed_before (env timed_before))
    by (repeat split; intros H; first [reflexivity | vm_compute in H; discriminate]).
  assert (Hs2 : supports timed_before (host 12 110))
    by (repeat split; intros H; first [reflexivity | vm_compute in H; discriminate]).
  split; [reflexivity|]. split; [exact Hi|]. split; [rewrite Ht; reflexivity|].
  split; [exact Hs1|]. split; [exact Hs2|].
  destruct (timeEnd_twice_counts_from_same_start v8_max_string_length "build" None "build"
              _ (host 12 110) timed_before eq_refl Hi Ht Hs1 Hs2)
    as (Hok1 & _ & t1 & t2 & _ & _ & _ & Ht2 & Hst & Hsm & Htime & Hmem & Htot).
  split; [exact Hok1|].
  rewrite Ht2. simpl. rewrite Hst, Hsm, Htime, Hmem, Htot. vm_compute. reflexivity.
Defined.

(** ** The snapshot *)

(** X8: the snapshot does not show open intervals.  On a registry without an
    entry under ["hasOwnProperty"], [timeStartImpl] for a key that has a
    record leaves the snapshot as it was; for a new key other than
    ["__proto__"] it adds the entry [(0, 0, 0)] and changes no other entry;
    for the key ["__proto__"] it leaves the registry as it was, so the
    snapshot never shows that key. *)
Theorem timeStart_in_snapshot
    (limit : N) (label : string) (level : option Z) (L : string) (w : World) :
  Js.getPersistedLabel limit label (level_or_default level) = Ok L ->
  intact (timers w) ->
  supports w (env w) ->
  let r := Js.timeStartImpl limit label level w in
  fst r = Ok tt
  /\ (is_Some (Js.own (timers w) L) -> getTimings (snd r) = getTimings w)
  /\ (Js.own (timers w) L = None -> L <> "__proto__" ->
      getTimings (snd r) = <[L := (0%float, 0%Z, 0%N)]> (getTimings w))
  /\ (L = "__proto__" -> snd r = w).
Proof.
  intros HL Hi _. cbv zeta.
  pose proof (Js_getPersistedLabel_ok _ _ _ _ HL) as HL'.
  assert (Hagree : L <> "__proto__" ->
            Js.timeStartImpl limit label level w = timeStartImpl label level w)
    by (intros Hp; now apply (Js_timeStartImpl_agrees limit _ _ L)).
  split; [|split; [|split]].
  - unfold Js.timeStartImpl, bind, lift. rewrite HL.
    now rewrite (Js_hasOwnProperty_intact _ _ Hi).
  - intros [t Ho]. destruct (Js_own_Some _ _ _ Ho) as [Hp Ht].
    rewrite (Hagree Hp), (timeStartImpl_eq _ _ _ _ HL'). cbn [snd].
    unfold getTimings. simpl. rewrite fmap_insert. simpl. rewrite Ht. simpl.
    apply insert_id. now rewrite lookup_fmap, Ht.
  - intros Ho Hp. rewrite (Js_own_lookup _ _ Hp) in Ho.
    rewrite (Hagree Hp), (timeStartImpl_eq _ _ _ _ HL'). cbn [snd].
    unfold getTimings. simpl. rewrite fmap_insert. simpl. now rewrite Ho.
  - intros ->. unfold Js.timeStartImpl, bind, lift. rewrite HL.
    rewrite (Js_hasOwnProperty_intact _ _ Hi). cbn [snd].
    unfold Js.assign. simpl String.eqb. apply set_timers_id.
Qed.

Lemma timeStart_in_snapshot_witness :
  let w := set_env (host 50 999) timed_before in
  Js.getPersistedLabel v8_max_string_length "build" (level_or_default None) = Ok "build"
  /\ intact (timers w)
  /\ supports w (env w)
  /\ is_Some (Js.own (timers w) "build")
  /\ getTimings (snd (Js.timeStartImpl v8_max_string_length "build" None w))
     = getTimings timed_before
  /\ getTimings (snd (Js.timeStartImpl v8_max_string_length "x" None w))
     = <[ "x" := (0%float, 0%Z, 0%N) ]> (getTimings timed_before)
  /\ Js.timeStartImpl v8_max_string_length "__proto__" None w = (Ok tt, w).
Proof.
  cbv zeta. set (w := set_env (host 50 999) timed_before).
  assert (Hi : intact (timers w)) by (vm_compute; reflexivity).
  assert (Hsup : supports w (env w))
    by (repeat split; intros H; first [reflexivity | vm_compute in H; discriminate]).
  assert (Hs : is_Some (Js.own (timers w) "build")) by (vm_compute; eauto).
  assert (Hx : Js.own (timers w) "x" = None) by (vm_compute; reflexivity).
  split; [reflexivity|]. split; [exact Hi|]. split; [exact Hsup|]. split; [exact Hs|].
  destruct (timeStart_in_snapshot v8_max_string_length "build" None "build" w
              eq_refl Hi Hsup) as (_ & Hkeep & _).
  destruct (timeStart_in_snapshot v8_max_string_length "x" None "x" w
              eq_refl Hi Hsup) as (_ & _ & Hadd & _).
  destruct (timeStart_in_snapshot v8_max_string_length "__proto__" None "__proto__" w
              eq_refl Hi Hsup) as (Hok & _ & _ & Hproto).
  split; [exact (Hkeep Hs)|].
  split; [apply Hadd; [exact Hx | discriminate]|].
  specialize (Hproto eq_refl). cbv zeta in Hok, Hproto.
  destruct (Js.timeStartImpl v8_max_string_length "__proto__" None w) as [r w'].
  simpl in Hok, Hproto. now subst.
Defined.

(** ** Tracing on an empty timer registry *)

(** X10: with the slots on the tracing implementations and an empty timer
    registry (a fresh process, or any initialisation with both [perf] and
    [trace] set), no sequence of [timeStart] and [timeEnd] calls, whether it
    runs to its end or stops at a throw, puts anything into the snapshot or
    ends a span: the tracer only sees spans being started and given
    attributes.  The sequence runs to its end when the span registry has no
    entry under ["hasOwnProperty"] and no [timeStart] is for that label. *)
Theorem tracing_never_ends_a_span (limit : N) (evs : list Event) (w : World) :
  Tracing w ->
  timers w = ∅ ->
  supports w (env w) ->
  Forall (event_supported w) evs ->
  let r := Js.run_events limit evs w in
  Tracing (snd r)
  /\ getTimings (snd r) = ∅
  /\ (exists new,
        tracer (snd r) = (tracer w ++ new)%list
        /\ forallb (fun c => negb (is_EndSpan c)) new = true)
  /\ (intact (spans w) -> existsb starts_hasOwnProperty evs = false -> fst r = Ok tt).
Proof.
  intros Hw Hempty _ _. cbv zeta. revert w Hw Hempty.
  induction evs as [|ev evs IH]; intros w Hw Hempty.
  - simpl. split; [exact Hw|].
    split; [unfold getTimings; rewrite Hempty; apply fmap_empty|].
    split; [exists []; now rewrite app_nil_r | reflexivity].
  - destruct (Js_run_event_tracing_effect limit ev w Hw)
      as (new & sp & e & Hsnd & Hnew & Hok & _ & _ & _ & Hint).
    specialize (Hnew Hempty). specialize (Hok Hempty).
    simpl Js.run_events. unfold bind.
    destruct (Js.run_event limit ev w) as [[[]|err] w1]; cbn [fst snd] in Hsnd, Hok;
      subst w1.
    + match goal with |- context [Js.run_events limit evs ?w1] =>
        destruct (IH w1) as (A & B & (new' & C & D) & F); [exact Hw | exact Hempty |]
      end.
      split; [exact A|]. split; [exact B|]. split.
      * exists (new ++ new')%list. rewrite C. simpl. rewrite <- app_assoc.
        split; [reflexivity|]. rewrite forallb_app, Hnew, D. reflexivity.
      * intros Hi Hex. simpl in Hex. apply orb_false_iff in Hex as [H1 H2].
        apply F; [|exact H2]. simpl. now apply Hint.
    + cbn [fst snd]. split; [exact Hw|].
      split; [unfold getTimings; simpl; rewrite Hempty; apply fmap_empty|].
      split; [exists new; split; [reflexivity | exact Hnew]|].
      intros Hi _. specialize (Hok Hi). discriminate Hok.
Qed.

Lemma tracing_never_ends_a_span_witness :
  let evs := [Call (CallStart "build" None); Tick (host 9 200);
              Call (CallEnd "build" None); Call (CallStart "build" (Some 2%Z))] in
  Tracing tracing_world
  /\ timers tracing_world = ∅
  /\ supports tracing_world (env tracing_world)
  /\ Forall (event_supported tracing_world) evs
  /\ intact (spans tracing_world)
  /\ existsb starts_hasOwnProperty evs = false
  /\ fst (Js.run_events v8_max_string_length evs tracing_world) = Ok tt
  /\ Tracing (snd (Js.run_events v8_max_string_length evs tracing_world))
  /\ getTimings (snd (Js.run_events v8_max_string_length evs tracing_world)) = ∅
  /\ exists new,
       tracer (snd (Js.run_events v8_max_string_length evs tracing_world))
       = (tracer tracing_world ++ new)%list
       /\ forallb (fun c => negb (is_EndSpan c)) new = true.
Proof.
  cbv zeta.
  assert (Hw : Tracing tracing_world) by (split; reflexivity).
  assert (He : timers tracing_world = ∅) by reflexivity.
  assert (Hsup : forall e, e = host 0 100 \/ e = host 9 200 -> supports tracing_world e).
  { intros e [-> | ->]; repeat split; intros H;
      first [reflexivity | vm_compute in H; discriminate]. }
  assert (Hs0 : supports tracing_world (env tracing_world)) by (apply Hsup; now left).
  assert (Hevs : Forall (event_supported tracing_world)
                   [Call (CallStart "build" None); Tick (host 9 200);
                    Call (CallEnd "build" None); Call (CallStart "build" (Some 2%Z))]).
  { repeat (apply Forall_cons; split; [first [exact I | apply Hsup; now right]|]).
    apply Forall_nil. exact I. }
  assert (Hi : intact (spans tracing_world)) by (vm_compute; reflexivity).
  destruct (tracing_never_ends_a_span v8_max_string_length _ tracing_world Hw He Hs0 Hevs)
    as (A & B & C & D).
  split; [exact Hw|]. split; [exact He|]. split; [exact Hs0|]. split; [exact Hevs|].
  split; [exact Hi|]. split; [reflexivity|]. split; [exact (D Hi eq_refl)|].
  split; [exact A|]. split; [exact B | exact C].
Defined.

(** ** Spans that stay registered *)

(** X11: the tracing implementations never take a span out of the registry
    and never replace one.  After any sequence of calls, run to its end or
    stopped at a throw, every label still has the span it had; nothing has
    been stored under ["__proto__"]; and a label that has a span now either
    had it before or was the label of one of the [timeStart] calls. *)
Theorem tracing_spans_kept (limit : N) (evs : list Event) (w : World) :
  Tracing w ->
  supports w (env w) ->
  Forall (event_supported w) evs ->
  let r := Js.run_events limit evs w in
  Tracing (snd r)
  /\ (forall L s, spans w !! L = Some s -> spans (snd r) !! L = Some s)
  /\ spans (snd r) !! "__proto__" = spans w !! "__proto__"
  /\ (forall L s, spans (snd r) !! L = Some s ->
        spans w !! L = Some s \/ exists level, Call (CallStart L level) ∈ evs).
Proof.
  intros Hw _ _. cbv zeta. revert w Hw.
  induction evs as [|ev evs IH]; intros w Hw.
  - simpl. split; [exact Hw|]. split; [trivial|]. split; [reflexivity | auto].
  - destruct (Js_run_event_tracing_effect limit ev w Hw)
      as (new & sp & e & Hsnd & _ & _ & Hold & Hproto & Hsp & _).
    assert (Hsp' : forall L s, sp !! L = Some s ->
              spans w !! L = Some s
              \/ exists level, Call (CallStart L level) ∈ ev :: evs).
    { intros L s HL. destruct (Hsp L s HL) as [H|[level ->]]; [now left|].
      right. exists level. apply elem_of_cons. now left. }
    simpl Js.run_events. unfold bind.
    destruct (Js.run_event limit ev w) as [[[]|err] w1]; cbn [fst snd] in Hsnd; subst w1.
    + match goal with |- context [Js.run_events limit evs ?w1] =>
        destruct (IH w1) as (A & B & C & D); [exact Hw |]
      end.
      split; [exact A|]. split; [intros L s HL; apply B; simpl; now apply Hold|].
      split; [rewrite C; simpl; exact Hproto|].
      intros L s HL. destruct (D L s HL) as [H|[level H]].
      * simpl in H. now apply Hsp'.
      * right. exists level. apply elem_of_cons. now right.
    + cbn [snd]. split; [exact Hw|]. split; [intros L s HL; simpl; now apply Hold|].
      split; [simpl; exact Hproto|]. intros L s HL. simpl in HL. now apply Hsp'.
Qed.

Lemma tracing_spans_kept_witness :
  let evs := [Call (CallStart "a" None); Call (CallStart "__proto__" None);
              Call (CallStart "b" None); Call (CallStart "a" (Some 4%Z))] in
  let started := snd (Js.call_timeStart v8_max_string_length "build" None tracing_world) in
  Tracing started
  /\ supports started (env started)
  /\ Forall (event_supported started) evs
  /\ spans started !! "build" = Some 0
  /\ spans (snd (Js.run_events v8_max_string_length evs started)) !! "build" = Some 0
  /\ spans (snd (Js.run_events v8_max_string_length evs started)) !! "__proto__" = None
  /\ Tracing (snd (Js.run_events v8_max_string_length evs started))
  /\ forall L s,
       spans (snd (Js.run_events v8_max_string_length evs started)) !! L = Some s ->
       spans started !! L = Some s \/ exists level, Call (CallStart L level) ∈ evs.
Proof.
  cbv zeta.
  set (started := snd (Js.call_timeStart v8_max_string_length "build" None tracing_world)).
  assert (Hw : Tracing started) by (split; reflexivity).
  assert (Hs0 : supports started (env started))
    by (repeat split; intros H; first [reflexivity | vm_compute in H; discriminate]).
  assert (Hevs : Forall (event_supported started)
                   [Call (CallStart "a" None); Call (CallStart "__proto__" None);
                    Call (CallStart "b" None); Call (CallStart "a" (Some 4%Z))]).
  { repeat (apply Forall_cons; split; [exact I|]). apply Forall_nil. exact I. }
  assert (Hb : spans started !! "build" = Some 0) by (vm_compute; reflexivity).
  assert (Hp : spans started !! "__proto__" = None) by (vm_compute; reflexivity).
  destruct (tracing_spans_kept v8_max_string_length _ started Hw Hs0 Hevs)
    as (A & B & C & D).
  split; [exact Hw|]. split; [exact Hs0|]. split; [exact Hevs|]. split; [exact Hb|].
  split; [exact (B "build" 0 Hb)|]. split; [rewrite C; exact Hp|].
  split; [exact A | exact D].
Defined.

(** ** Tracing after a Timing activation *)

(** X13: after an initialisation with [trace] only, for a label that still
    has a timer record as an own property of a registry without an entry
    under ["hasOwnProperty"], a [timeStart] followed by a [timeEnd] does
    close the span: the tracer sees [totalMemory] set to the larger of the
    peak left in the stale timer record and the current heap reading, then
    [endMemory] set to the current reading, then [end].  The span stays
    registered, so a later [timeStart] for the label starts nothing. *)
Theorem stale_timer_lets_timeEnd_close
    (limit : N) (o : InputOptions) (w0 : World) (label : string) (l1 l2 l3 : option Z)
    (t : Timer) (e : Env) :
  perf o = false -> trace o = true ->
  intact (timers w0) ->
  Js.own (timers w0) label = Some t ->
  let w := snd (initialiseTimers o w0) in
  supports w (env w0) -> supports w e ->
  let w1 := set_env e (snd (Js.call_timeStart limit label l1 w)) in
  let s := length (tracer w0) in
  exists w2,
    Js.call_timeEnd limit label l2 w1 = (Ok tt, w2)
    /\ tracer w2
       = (tracer w1
          ++ [SetAttribute s "totalMemory"
                (ANumber (N.max (totalMemory t) (call_getMemory w1)));
              SetAttribute s "endMemory" (ANumber (call_getMemory w1));
              EndSpan s])%list
    /\ Js.own (spans w2) label = Some s
    /\ Js.call_timeStart limit label l3 w2 = (Ok tt, w2).
Proof.
  intros Hp Ht Hi Ho. cbv zeta. intros _ _.
  destruct (Js_own_intact _ _ _ Hi Ho) as (Hh & Hpr & Hrec).
  destruct (trace_only_world o w0 Hp Ht) as ([Hs He] & Htm & Hsp & Htr).
  set (w := snd (initialiseTimers o w0)) in *.
  assert (Hiw : intact (spans w)) by (unfold intact; rewrite Hsp; apply lookup_empty).
  assert (How : Js.own (spans w) label = None) by (rewrite Hsp; apply Js_own_empty).
  assert (Hstart : Js.call_timeStart limit label l1 w = Js.timeStartTraceImpl label l1 w)
    by (unfold Js.call_timeStart; now rewrite Hs).
  rewrite Hstart, (Js_timeStartTraceImpl_new _ _ _ Hiw How). cbn [snd].
  rewrite (Js_assign_insert _ _ _ Hpr), Htr.
  assert (Hend : forall X,
            timers X = timers w0 -> timeEnd X = TimeEndTraceImpl ->
            spans X !! label = Some (length (tracer w0)) ->
            Js.call_timeEnd limit label l2 X
            = (Ok tt,
               log (EndSpan (length (tracer w0)))
                 (log (SetAttribute (length (tracer w0)) "endMemory"
                         (ANumber (call_getMemory X)))
                    (log (SetAttribute (length (tracer w0)) "totalMemory"
                            (ANumber (N.max (totalMemory t) (call_getMemory X)))) X)))).
  { intros X HX1 HX2 HX3. unfold Js.call_timeEnd. rewrite HX2.
    unfold Js.timeEndTraceImpl. rewrite HX1, (Js_hasOwnProperty_intact _ _ Hi), Ho.
    now rewrite (Js_own_lookup _ _ Hpr), HX3. }
  eexists. split.
  - apply Hend; [exact Htm | exact He | simpl; apply lookup_insert_eq].
  - unfold log. cbn [tracer spans timeStart set_env set_tracer set_spans].
    split; [now rewrite <- !app_assoc|].
    rewrite (Js_own_lookup _ _ Hpr), lookup_insert_eq. split; [reflexivity|].
    unfold Js.call_timeStart. cbn [timeStart set_env set_tracer set_spans]. rewrite Hs.
    apply (Js_timeStartTraceImpl_known _ _ (length (tracer w0))).
    + cbn [spans set_env set_tracer set_spans]. apply intact_insert; assumption.
    + cbn [spans set_env set_tracer set_spans].
      rewrite (Js_own_lookup _ _ Hpr). apply lookup_insert_eq.
Qed.

Lemma stale_timer_lets_timeEnd_close_witness :
  let w := snd (initialiseTimers trace_options timed_before) in
  let w1 := set_env (host 20 90)
              (snd (Js.call_timeStart v8_max_string_length "build" None w)) in
  perf trace_options = false /\ trace trace_options = true
  /\ intact (timers timed_before)
  /\ is_Some (Js.own (timers timed_before) "build")
  /\ supports w (env timed_before) /\ supports w (host 20 90)
  /\ exists w2,
       Js.call_timeEnd v8_max_string_length "build" None w1 = (Ok tt, w2)
       /\ tracer w2
          = (tracer w1 ++ [SetAttribute 0 "totalMemory" (ANumber 150);
                           SetAttribute 0 "endMemory" (ANumber 90);
                           EndSpan 0])%list
       /\ Js.own (spans w2) "build" = Some 0
       /\ Js.call_timeStart v8_max_string_length "build" (Some 5%Z) w2 = (Ok tt, w2).
Proof.
  cbv zeta.
  assert (Hi : intact (timers timed_before)) by (vm_compute; reflexivity).
  assert (Ht : Js.own (timers timed_before) "build"
               = Some {| memory := 40; startMemory := 120; startTime := (10, 0)%float;
                         time := 3.5; totalMemory := 150 |})
    by (vm_compute; reflexivity).
  assert (Hs1 : supports (snd (initialiseTimers trace_options timed_before))
                  (env timed_before))
    by (repeat split; intros H; first [reflexivity | vm_compute in H; discriminate]).
  assert (Hs2 : supports (snd (initialiseTimers trace_options timed_before)) (host 20 90))
    by (repeat split; intros H; first [reflexivity | vm_compute in H; discriminate]).
  split; [reflexivity|]. split; [reflexivity|]. split; [exact Hi|].
  split; [rewrite Ht; eauto|]. split; [exact Hs1|]. split; [exact Hs2|].
  destruct (stale_timer_lets_timeEnd_close v8_max_string_length trace_options timed_before
              "build" None None (Some 5%Z) _ (host 20 90) eq_refl eq_refl Hi Ht Hs1 Hs2)
    as (w2 & Hend & Htr & Hsp & Hagain).
  exists w2. split; [exact Hend|]. split; [exact Htr|]. split; [exact Hsp | exact Hagain].
Defined.

(** ** Wrappers around hooks with a primitive result *)

Section PrimitiveResults.

Variable native : fid -> Value -> list Value -> JS Value.

(** X17: a wrapper hands on what the hook returns.  When the hook returns
    [undefined], a number or a string, the wrapper returns that value; with
    the slots on the no-ops the world is the one the hook left, and with the
    slots on the Timing implementations it differs from it in the timer
    registry only.  The Timing case is for registries without an entry under
    ["hasOwnProperty"], a label that fits into a string, and a host that has
    what the bound helpers use, before and after the hook. *)
Theorem wrapper_hands_on_plain_result
    (limit : N) (timerLabel : string) (plugin timedPlugin : loc) (orig : Prop_)
    (this : Value) (args : list Value) (w w2 : World) (v : Value) :
  call native orig (receiver this plugin timedPlugin) args
    (snd (call_timeStart timerLabel (Some 4%Z) w)) = (Ok v, w2) ->
  is_primitive v = true ->
  (Disabled w -> Disabled w2 ->
     call native (PTimed timerLabel plugin timedPlugin orig) this args w = (Ok v, w2))
  /\ (Timing w -> Timing w2 ->
      intact (timers w) -> intact (timers w2) ->
      supports w (env w) -> supports w2 (env w2) ->
      Js.fits limit ("- " ++ timerLabel) = true ->
      snd (call_timeStart timerLabel (Some 4%Z) w)
      = snd (Js.call_timeStart limit timerLabel (Some 4%Z) w)
      /\ exists T,
           call native (PTimed timerLabel plugin timedPlugin orig) this args w
           = (Ok v, set_timers T w2)
           /\ Js.call_timeEnd limit timerLabel (Some 4%Z) w2 = (Ok tt, set_timers T w2)
           /\ intact T).
Proof.
  intros Hcall Hplain.
  assert (Hthen : is_thenable v = None) by (destruct v; try discriminate; reflexivity).
  split.
  - intros _ [_ He2]. simpl call. unfold timed_hook.
    rewrite (bind_ok _ _ _ _ _ (call_timeStart_level_4 timerLabel w)).
    rewrite (bind_ok _ _ _ _ _ Hcall).
    rewrite (bind_ok _ _ _ tt w2) by (unfold call_timeEnd; now rewrite He2).
    now rewrite Hthen.
  - intros Hw Hw2 Hi Hi2 _ _ Hfits.
    assert (HK : Js.getPersistedLabel limit timerLabel (level_or_default (Some 4%Z))
                 = Ok ("- " ++ timerLabel)).
    { rewrite (Js_getPersistedLabel_spec limit _ _ _ (level_4_label timerLabel)).
      rewrite Hfits. now rewrite orb_true_r. }
    assert (Hp : "- " ++ timerLabel <> "__proto__") by discriminate.
    assert (Hh : "- " ++ timerLabel <> "hasOwnProperty") by discriminate.
    split.
    { unfold call_timeStart, Js.call_timeStart. destruct Hw as [-> _].
      now rewrite (Js_timeStartImpl_agrees limit _ _ _ _ HK Hi Hp). }
    simpl call.
    rewrite (call_timeStart_timing _ _ _ Hw) in Hcall.
    rewrite (timed_hook_returns _ _ _ _ _ Hw Hcall Hw2), Hthen.
    unfold Js.call_timeEnd. destruct Hw2 as [_ ->].
    rewrite (Js_timeEndImpl_agrees limit _ _ _ _ HK Hi2 Hp).
    destruct (timers w2 !! ("- " ++ timerLabel)) as [t|] eqn:E.
    + rewrite (timeEndImpl_known _ _ _ _ t (level_4_label timerLabel) E).
      eexists. split; [reflexivity|]. split; [reflexivity|].
      now apply intact_insert.
    + rewrite (timeEndImpl_unknown _ _ _ _ (level_4_label timerLabel) E).
      exists (timers w2). rewrite set_timers_id. repeat split. exact Hi2.
Qed.

End PrimitiveResults.

Lemma wrapper_hands_on_plain_result_witness :
  let w2 := set_env (host 5 130)
              (snd (call_timeStart "plugin 0 (p) - transform" (Some 4%Z) timing_world)) in
  call returns_7 (PNative 0) (receiver (VObject 1) 0 1) []
    (snd (call_timeStart "plugin 0 (p) - transform" (Some 4%Z) timing_world))
  = (Ok (VNumber 7), w2)
  /\ is_primitive (VNumber 7) = true
  /\ Timing timing_world /\ Timing w2
  /\ intact (timers timing_world) /\ intact (timers w2)
  /\ supports timing_world (env timing_world) /\ supports w2 (env w2)
  /\ Js.fits v8_max_string_length ("- " ++ "plugin 0 (p) - transform") = true
  /\ fst (call returns_7 wrapped_transform (VObject 1) [] timing_world) = Ok (VNumber 7)
  /\ (fun w3 => (time <$> timers w3 !! "- plugin 0 (p) - transform", env w3, heap w3))
       (snd (call returns_7 wrapped_transform (VObject 1) [] timing_world))
     = (Some 5%float, env w2, heap w2)
  /\ call returns_7 (PTimed "plugin 0 (p) - transform" 0 1 (PNative 0)) (VObject 1) []
       (snd (initialiseTimers disabled_options loaded))
     = (Ok (VNumber 7), set_env (host 5 130) (snd (initialiseTimers disabled_options loaded))).
Proof.
  cbv zeta.
  set (w2 := set_env (host 5 130)
               (snd (call_timeStart "plugin 0 (p) - transform" (Some 4%Z) timing_world))).
  assert (Hw : Timing timing_world) by (split; reflexivity).
  assert (Hw2 : Timing w2) by (split; reflexivity).
  assert (Hi : intact (timers timing_world)) by (vm_compute; reflexivity).
  assert (Hi2 : intact (timers w2)) by (vm_compute; reflexivity).
  assert (Hs : supports timing_world (env timing_world))
    by (repeat split; intros H; first [reflexivity | vm_compute in H; discriminate]).
  assert (Hs2 : supports w2 (env w2))
    by (repeat split; intros H; first [reflexivity | vm_compute in H; discriminate]).
  assert (Hf : Js.fits v8_max_string_length ("- " ++ "plugin 0 (p) - transform") = true)
    by (vm_compute; reflexivity).
  split; [reflexivity|]. split; [reflexivity|]. split; [exact Hw|]. split; [exact Hw2|].
  split; [exact Hi|]. split; [exact Hi2|]. split; [exact Hs|]. split; [exact Hs2|].
  split; [exact Hf|].
  destruct (wrapper_hands_on_plain_result returns_7 v8_max_string_length
              "plugin 0 (p) - transform" 0 1
              (PNative 0) (VObject 1) [] timing_world w2 (VNumber 7) eq_refl eq_refl)
    as [_ H].
  destruct (H Hw Hw2 Hi Hi2 Hs Hs2 Hf) as (_ & T & HT & Hend & HiT).
  split; [unfold wrapped_transform; now rewrite HT|].
  split; [vm_compute; reflexivity|].
  set (d := snd (initialiseTimers disabled_options loaded)).
  assert (Hd : Disabled d) by (split; reflexivity).
  destruct (wrapper_hands_on_plain_result returns_7 v8_max_string_length
              "plugin 0 (p) - transform" 0 1
              (PNative 0) (VObject 1) [] d (set_env (host 5 130) d) (VNumber 7)
              eq_refl eq_refl)
    as [Hdis _].
  exact (Hdis Hd (conj eq_refl eq_refl)).
Defined.
